(** * The order-intake service of [src/index.js]

    A shallow embedding of the Express handlers (catalog reads, order
    creation, order retrieval with its best-effort refresh from the order
    management system, order listing, health) and the properties the
    specification states about them.

    JavaScript numbers are IEEE binary64 values: they are the kernel's
    primitive floats.  Request bodies and the downstream reply are JSON
    documents, kept as untyped JavaScript values, so that the handlers'
    truthiness tests, property reads and coercions are written as the
    source performs them. *)

From Stdlib Require Import String List ZArith Bool Lia QArith Qround Lqa.
From Stdlib Require Import DecimalString.
From Stdlib Require Import PrimFloat FloatOps SpecFloat FloatAxioms Uint63.
Import ListNotations.

Set Warnings "-register-all".

Close Scope Q_scope.

Open Scope string_scope.

(** ** The fragment of JavaScript the handlers use *)

Module JS.

(** The values [JSON.parse] builds, and [undefined] (the result of reading
    a property that is absent).  An object lists its own properties. *)
Inductive value : Type :=
| VUndefined
| VNull
| VBool (b : bool)
| VNum (n : float)
| VStr (s : string)
| VArr (elems : list value)
| VObj (props : list (string * value)).

(** A step either completes or throws (here always a [TypeError]). *)
Inductive completion (A : Type) : Type :=
| Normal (a : A)
| Throw.
Arguments Normal {A} a.
Arguments Throw {A}.

Definition bind {A B} (c : completion A) (k : A -> completion B) : completion B :=
  match c with
  | Normal a => k a
  | Throw => Throw
  end.

(** The two conversions between strings and numbers are the engine's
    ([Number::toString] and [StringToNumber]); the handlers only pass
    their results on, so they are left to the engine. *)
Class Engine : Type := {
  NumberToString : float -> string;
  StringToNumber : string -> float
}.

(** [ToBoolean]: what [!v] and [v || w] test. *)
Definition truthy (v : value) : bool :=
  match v with
  | VUndefined | VNull => false
  | VBool b => b
  | VNum n => negb (PrimFloat.eqb n zero || PrimFloat.is_nan n)
  | VStr s => negb (String.eqb s "")
  | VArr _ | VObj _ => true
  end.

(** [a || b] *)
Definition or_else (a b : value) : value := if truthy a then a else b.

Fixpoint own (props : list (string * value)) (name : string) : value :=
  match props with
  | [] => VUndefined
  | (k, v) :: rest => if String.eqb k name then v else own rest name
  end.

Definition has_own (props : list (string * value)) (name : string) : bool :=
  existsb (fun kv => String.eqb (fst kv) name) props.

(** [v.name], for the names the handlers read ([items], [customer],
    [name], [email], [address], [phone], [productId], [quantity], [data],
    [status], [updatedAt]): none of them is defined on a built-in
    prototype, so only an object's own property can answer; reading a
    property of [undefined] or [null] throws. *)
Definition member (v : value) (name : string) : completion value :=
  match v with
  | VUndefined | VNull => Throw
  | VObj props => Normal (own props name)
  | VBool _ | VNum _ | VStr _ | VArr _ => Normal VUndefined
  end.

Definition isArray (v : value) : bool :=
  match v with
  | VArr _ => true
  | _ => false
  end.

(** [p.id === v] for a string [p.id]: no coercion. *)
Definition strict_equals_string (s : string) (v : value) : bool :=
  match v with
  | VStr t => String.eqb s t
  | _ => false
  end.

Section Coercions.
Context {engine : Engine}.

(** [ToString].  An array is joined with commas, [undefined] and [null]
    elements giving the empty string.  A parsed object inherits
    [Object.prototype.toString] unless it has an own [toString]
    property, which, coming from JSON, is not callable: then the
    conversion throws. *)
Fixpoint ToString (v : value) : completion string :=
  match v with
  | VUndefined => Normal "undefined"
  | VNull => Normal "null"
  | VBool b => Normal (if b then "true" else "false")
  | VNum n => Normal (NumberToString n)
  | VStr s => Normal s
  | VArr elems =>
      (fix join (l : list value) : completion string :=
         match l with
         | [] => Normal ""
         | e :: rest =>
             bind (match e with
                   | VUndefined | VNull => Normal ""
                   | _ => ToString e
                   end)
               (fun s =>
                  match rest with
                  | [] => Normal s
                  | _ :: _ => bind (join rest) (fun r => Normal (s ++ "," ++ r))
                  end)
         end) elems
  | VObj props =>
      if has_own props "toString" then Throw else Normal "[object Object]"
  end.

(** [ToNumber], through [ToPrimitive] for arrays and objects. *)
Definition ToNumber (v : value) : completion float :=
  match v with
  | VUndefined => Normal nan
  | VNull => Normal zero
  | VBool b => Normal (if b then one else zero)
  | VNum n => Normal n
  | VStr s => Normal (StringToNumber s)
  | VArr _ | VObj _ => bind (ToString v) (fun s => Normal (StringToNumber s))
  end.
End Coercions.

(** [Math.round]: the nearest integer, ties towards +infinity; NaN, the
    infinities, the zeros and integral values are returned as they are. *)
Definition Math_round (x : float) : float :=
  match Prim2SF x with
  | S754_finite s m e =>
      if (0 <=? e)%Z then x
      else
        let k := Z.to_pos (- e) in
        let sm := if s then Z.neg m else Z.pos m in
        let n := Z.shiftr (Z.shiftl sm 1 + Z.pow_pos 2 k) (Z.pos k + 1) in
        let r := PrimFloat.of_uint63 (Uint63.of_Z (Z.abs n)) in
        if (n <? 0)%Z then PrimFloat.opp r
        else if (n =? 0)%Z then (if s then neg_zero else zero)
        else r
  | _ => x
  end.

End JS.

Import JS.

Declare Scope js_scope.
Delimit Scope js_scope with js.
Notation "x <- c ;; k" := (bind c (fun x => k))
  (at level 61, c at next level, right associativity) : js_scope.
Open Scope js_scope.

(** ** The data model *)

(** Modelled from the spec: a record of the catalog file
    [data/products.json], which is not among the sources.  It has a string
    identifier, a display name and a unit price, the fields the handlers
    read, and whatever else the record carries. *)
Module Product.
Record t : Type := mk {
  id : string;
  name : string;
  price : float;
  extra : list (string * value)
}.
End Product.

(** An element of [orderItems], as the creation loop pushes it. *)
Module OrderItem.
Record t : Type := mk {
  productId : string;
  name : string;
  price : float;
  quantity : value;
  unitPrice : float;
  subtotal : float
}.
End OrderItem.

Module Customer.
Record t : Type := mk {
  name : value;
  email : value;
  address : value;
  phone : value
}.
End Customer.

Module Order.
Record t : Type := mk {
  id : string;
  items : list OrderItem.t;
  customer : Customer.t;
  totalAmount : float;
  currency : string;
  status : value;
  createdAt : string;
  updatedAt : value
}.

(** [order.status = v] and [order.updatedAt = v] *)
Definition set_status (o : t) (v : value) : t :=
  mk (id o) (items o) (customer o) (totalAmount o) (currency o) v (createdAt o) (updatedAt o).
Definition set_updatedAt (o : t) (v : value) : t :=
  mk (id o) (items o) (customer o) (totalAmount o) (currency o) (status o) (createdAt o) v.
End Order.

(** [new Map()]: string keys in insertion order; [set] on a key already
    present replaces its value where it stands. *)
Module Map.
Definition t (V : Type) : Type := list (string * V).

Definition empty {V} : t V := [].

Fixpoint get {V} (m : t V) (k : string) : option V :=
  match m with
  | [] => None
  | (k', v) :: rest => if String.eqb k' k then Some v else get rest k
  end.

Fixpoint set {V} (m : t V) (k : string) (v : V) : t V :=
  match m with
  | [] => [(k, v)]
  | (k', v') :: rest =>
      if String.eqb k' k then (k', v) :: rest else (k', v') :: set rest k v
  end.

Definition keys {V} (m : t V) : list string := map fst m.
Definition values {V} (m : t V) : list V := map snd m.
End Map.

(** ** Responses *)

(** The object handed to [res.json]. *)
Inductive payload : Type :=
| Failure (error : string)
| Health (status service timestamp : string)
| ProductList (data : list Product.t) (total : nat)
| ProductData (data : Product.t)
| OrderCreated (message : string) (data : Order.t)
| OrderData (data : Order.t)
| OrderList (data : list Order.t) (total : nat).

(** The payload's [success] field; the health payload has none. *)
Definition success (p : payload) : option bool :=
  match p with
  | Failure _ => Some false
  | Health _ _ _ => None
  | _ => Some true
  end.

Record response : Type := mkResponse {
  statusCode : nat;
  json : payload
}.

(** What the downstream [fetch] of the retrieval handler comes to: the
    promise rejects (connection refused, timed out, ...), or a response
    arrives, whose [ok] flag is read first and whose body, if read, parses
    to a value or fails to parse. *)
Inductive fetch_result : Type :=
| FetchRejected
| FetchResponse (ok : bool) (parsed : completion value).

(** A request as a handler sees it, with what the environment supplies
    while it runs: the clock's readings, the generated identifier, the
    downstream service's answer. *)
Inductive request : Type :=
| GetHealth (now : string)
| GetProducts
| GetProduct (id : string)
| PostOrder (body : value) (uuid createdNow updatedNow : string)
| GetOrder (id : string) (oms : fetch_result)
| GetOrders.

(** What handling a request leaves: the response sent, the order store,
    and the URLs fetched on the way. *)
Record outcome : Type := mkOutcome {
  sent : response;
  stored : Map.t Order.t;
  fetched : list string
}.

(** The catalog as the process has it after start-up: what reading and
    parsing [data/products.json] gave, or the empty list when either threw
    (the [try]/[catch] around [JSON.parse(fs.readFileSync(...))]). *)
Definition load_products (parsed : completion (list Product.t)) : list Product.t :=
  match parsed with
  | Normal products => products
  | Throw => []
  end.

(** ** The handlers *)

Section Service.
Context {engine : Engine}.

(** [products], parsed from [data/products.json] when the process starts
    and never written afterwards; [OMS_URL], from the environment. *)
Variable products : list Product.t.
Variable OMS_URL : string.

Definition reply (orders : Map.t Order.t) (code : nat) (p : payload) : outcome :=
  mkOutcome (mkResponse code p) orders [].

(** [GET /health] *)
Definition health (orders : Map.t Order.t) (now : string) : outcome :=
  reply orders 200 (Health "healthy" "ecommerce" now).

(** [GET /api/products] *)
Definition list_products (orders : Map.t Order.t) : outcome :=
  reply orders 200 (ProductList products (length products)).

(** [GET /api/products/:id] *)
Definition get_product (orders : Map.t Order.t) (id : string) : outcome :=
  match find (fun p => String.eqb (Product.id p) id) products with
  | None => reply orders 404 (Failure "Product not found")
  | Some product => reply orders 200 (ProductData product)
  end.

(** [products.find(p => p.id === item.productId)] *)
Definition find_product (productId : value) : option Product.t :=
  find (fun p => strict_equals_string (Product.id p) productId) products.

(** How the loop over [items] ends: with a [return res.status(400)...]
    from inside it, or past its last item with the two accumulators. *)
Inductive loop_end : Type :=
| Returned (r : response)
| Completed (totalAmount : float) (orderItems : list OrderItem.t).

(** The body of [for (const item of items)], with [totalAmount] and
    [orderItems] as they stand when the item is reached.  [item.productId]
    and [item.quantity] are read more than once by the source; a read has
    no effect, so each is bound once here. *)
Fixpoint price_items (items : list value) (totalAmount : float)
    (orderItems : list OrderItem.t) : completion loop_end :=
  match items with
  | [] => Normal (Completed totalAmount orderItems)
  | item :: rest =>
      productId <- member item "productId" ;;
      match find_product productId with
      | None =>
          shown <- ToString productId ;;
          Normal (Returned (mkResponse 400 (Failure ("Product not found: " ++ shown))))
      | Some product =>
          quantity <- member item "quantity" ;;
          n <- ToNumber quantity ;;
          if (n <=? 0)%float then
            shown <- ToString productId ;;
            Normal (Returned
                      (mkResponse 400 (Failure ("Invalid quantity for product: " ++ shown))))
          else
            let unitPrice := Product.price product in
            let subtotal := (Math_round (unitPrice * n * 100) / 100)%float in
            price_items rest (totalAmount + subtotal)%float
              (orderItems ++
                 [OrderItem.mk (Product.id product) (Product.name product) unitPrice
                    quantity unitPrice subtotal])
      end
  end.

(** [!customer || !customer.email || !customer.name] *)
Definition customer_missing (customer : value) : completion bool :=
  if negb (truthy customer) then Normal true
  else
    email <- member customer "email" ;;
    if negb (truthy email) then Normal true
    else
      name <- member customer "name" ;;
      Normal (negb (truthy name)).

(** The elements of an array ([items.length], [for ... of items]); the
    handler reaches them only after [Array.isArray(items)]. *)
Definition elements (v : value) : list value :=
  match v with
  | VArr elems => elems
  | _ => []
  end.

(** The [try] block of [POST /api/orders/create].  Everything in it that
    can throw comes before [orders.set]. *)
Definition create_order_try (orders : Map.t Order.t) (body : value)
    (uuid createdNow updatedNow : string) : completion outcome :=
  items <- member body "items" ;;
  customer <- member body "customer" ;;
  if negb (truthy items) || negb (isArray items) || Nat.eqb (length (elements items)) 0
  then Normal (reply orders 400 (Failure "Items array is required and cannot be empty"))
  else
    missing <- customer_missing customer ;;
    if missing
    then Normal (reply orders 400 (Failure "Customer information (name, email) is required"))
    else
      ended <- price_items (elements items) zero [] ;;
      match ended with
      | Returned r => Normal (mkOutcome r orders [])
      | Completed totalAmount orderItems =>
          let orderId := uuid in
          name <- member customer "name" ;;
          email <- member customer "email" ;;
          address <- member customer "address" ;;
          phone <- member customer "phone" ;;
          let order :=
            Order.mk orderId orderItems
              (Customer.mk name email (or_else address VNull) (or_else phone VNull))
              (Math_round (totalAmount * 100) / 100)%float
              "USD" (VStr "pending") createdNow (VStr updatedNow) in
          Normal (mkOutcome
                    (mkResponse 201 (OrderCreated "Order created successfully" order))
                    (Map.set orders orderId order) [])
      end.

(** [POST /api/orders/create]: the [try] block, and its [catch]. *)
Definition create_order (orders : Map.t Order.t) (body : value)
    (uuid createdNow updatedNow : string) : outcome :=
  match create_order_try orders body uuid createdNow updatedNow with
  | Normal o => o
  | Throw => reply orders 500 (Failure "Internal server error")
  end.

(** The [try]/[catch] of [GET /api/orders/:id], as the state of the
    [order] object when it is left: the object as it was when nothing was
    assigned, and with the assignments made so far when a later step
    throws. *)
Definition refresh (order : Order.t) (oms : fetch_result) : Order.t :=
  match oms with
  | FetchRejected => order
  | FetchResponse ok parsed =>
      if ok then
        match parsed with
        | Throw => order
        | Normal omsData =>
            match member omsData "data" with
            | Throw => order
            | Normal data =>
                if truthy data then
                  match member data "status" with
                  | Throw => order
                  | Normal status =>
                      let order1 :=
                        Order.set_status order (or_else status (Order.status order)) in
                      match member data "updatedAt" with
                      | Throw => order1
                      | Normal updatedAt =>
                          Order.set_updatedAt order1
                            (or_else updatedAt (Order.updatedAt order1))
                      end
                  end
                else order
            end
        end
      else order
  end.

(** [GET /api/orders/:id].  [order] is the very object the map holds, so
    the map shows the assignments of the [try] block with or without the
    [orders.set] that follows them. *)
Definition get_order (orders : Map.t Order.t) (orderId : string)
    (oms : fetch_result) : outcome :=
  match Map.get orders orderId with
  | None => reply orders 404 (Failure "Order not found")
  | Some order =>
      let order' := refresh order oms in
      mkOutcome (mkResponse 200 (OrderData order'))
        (Map.set orders orderId order')
        [OMS_URL ++ "/api/orders/" ++ orderId]
  end.

(** [GET /api/orders] *)
Definition list_orders (orders : Map.t Order.t) : outcome :=
  let allOrders := Map.values orders in
  reply orders 200 (OrderList allOrders (length allOrders)).

(** The routes. *)
Definition handle (orders : Map.t Order.t) (req : request) : outcome :=
  match req with
  | GetHealth now => health orders now
  | GetProducts => list_products orders
  | GetProduct id => get_product orders id
  | PostOrder body uuid createdNow updatedNow =>
      create_order orders body uuid createdNow updatedNow
  | GetOrder id oms => get_order orders id oms
  | GetOrders => list_orders orders
  end.

(** The store after a sequence of requests, served one after the other. *)
Definition serve (orders : Map.t Order.t) (reqs : list request) : Map.t Order.t :=
  fold_left (fun m req => stored (handle m req)) reqs orders.

(** The stores the process can be in: [serve] from the empty map. *)
Definition reachable (orders : Map.t Order.t) : Prop :=
  exists reqs, serve Map.empty reqs = orders.

End Service.

(** ** Notions the properties are stated with *)

(** Rounding to two decimals, as the service computes it:
    [Math.round(x * 100) / 100]. *)
Definition round2 (x : float) : float := (Math_round (x * 100) / 100)%float.

(** The sum of a list of amounts, added one after the other from zero. *)
Definition sum_amounts (l : list float) : float := fold_left PrimFloat.add l zero.

(** A number that is a positive integer. *)
Definition positive_integer (n : float) : bool :=
  (zero <? n)%float && PrimFloat.eqb (Math_round n) n && PrimFloat.is_finite n.

(** A value whose conversions to a string and to a number cannot throw:
    anything but an object with an own [toString] property, or an array
    that holds one. *)
Definition convertible {engine : Engine} (v : value) : bool :=
  match ToString v with
  | Normal _ => true
  | Throw => false
  end.

(** An item the creation loop can examine without an exception: not
    [null] or [undefined], with a convertible [productId] and [quantity]. *)
Definition examinable {engine : Engine} (item : value) : bool :=
  match member item "productId", member item "quantity" with
  | Normal productId, Normal quantity => convertible productId && convertible quantity
  | _, _ => false
  end.

(** [v.name] where the read cannot throw or its result is not needed. *)
Definition field (v : value) (name : string) : value :=
  match member v name with
  | Normal x => x
  | Throw => VUndefined
  end.

(** "Items absent or empty": the body's [items] is not an array with at
    least one element. *)
Definition items_missing (body : value) : bool :=
  match field body "items" with
  | VArr (_ :: _) => false
  | _ => true
  end.

(** "Customer missing or lacking name or email". *)
Definition customer_incomplete (body : value) : bool :=
  let customer := field body "customer" in
  negb (truthy customer)
  || negb (truthy (field customer "name"))
  || negb (truthy (field customer "email")).

(** The downstream call "fails, times out, or returns no usable data": the
    fetch is rejected, the response is not [ok], its body does not parse,
    or the parsed body carries neither a status nor a timestamp to take. *)
Definition no_usable_data (oms : fetch_result) : bool :=
  match oms with
  | FetchRejected => true
  | FetchResponse false _ => true
  | FetchResponse true Throw => true
  | FetchResponse true (Normal omsData) =>
      let data := field omsData "data" in
      negb (truthy (field data "status")) && negb (truthy (field data "updatedAt"))
  end.

(** Two request items that agree on [productId] and [quantity], whatever
    else (a price, say) either carries. *)
Definition same_line (a b : value) : Prop :=
  member a "productId" = member b "productId"
  /\ member a "quantity" = member b "quantity".

(** The total of an order is the rounded sum of its items' subtotals. *)
Definition total_is_sum (o : Order.t) : Prop :=
  Order.totalAmount o = round2 (sum_amounts (map OrderItem.subtotal (Order.items o))).

(** The exact value of a binary64 number: the rational its sign, mantissa
    and exponent stand for; none for NaN and the infinities. *)
Definition exact (x : float) : option Q :=
  match Prim2SF x with
  | S754_zero _ => Some 0%Q
  | S754_finite s m e =>
      let sm := if s then Z.neg m else Z.pos m in
      Some (if (0 <=? e)%Z then inject_Z (sm * 2 ^ e)
            else (sm # Z.to_pos (2 ^ (- e)))%Q)
  | _ => None
  end.

(** [c] is [y] rounded to the nearest integer, a tie going up: the exact
    value of [c] is an integer [n] with [y - 1/2 < n <= y + 1/2], where [y]
    is taken exactly.  NaN and the infinities round to themselves. *)
Definition rounds_half_up (y c : float) : Prop :=
  match exact y with
  | Some q =>
      exists (n : Z) (qc : Q),
        exact c = Some qc
        /\ (qc == inject_Z n)%Q
        /\ (q - (1 # 2) < inject_Z n)%Q
        /\ (inject_Z n <= q + (1 # 2))%Q
  | None => c = y
  end.

(** [r] is the amount [x] taken to whole cents the way the service does
    it: the binary64 product [x * 100], rounded to the nearest integer (a
    tie going up), and that integer divided by 100 in binary64. *)
Definition in_cents (x r : float) : Prop :=
  exists c, rounds_half_up (x * 100) c /\ r = (c / 100)%float.

(** The cent nearest to the exact value of [x] (a tie going up): what
    rounding [x] to two decimal places gives, counted in cents. *)
Definition nearest_cent (x : float) : option Z :=
  option_map (fun q => Qfloor (q * 100 + (1 # 2))%Q) (exact x).

(** The body is there: not [undefined], not [null]. *)
Definition has_body (body : value) : bool :=
  match body with
  | VUndefined | VNull => false
  | _ => true
  end.

Section Validation.
Context {engine : Engine}.
Variable products : list Product.t.

(** "Some item's productId not in the catalog, or some item's quantity
    non-positive": what makes one item offend. *)
Definition offending (item : value) : bool :=
  match find_product products (field item "productId") with
  | None => true
  | Some _ =>
      match ToNumber (field item "quantity") with
      | Normal n => (n <=? 0)%float
      | Throw => false
      end
  end.

(** A request that fails validation, in the words of the specification. *)
Definition fails_validation (body : value) : bool :=
  items_missing body
  || customer_incomplete body
  || existsb offending (elements (field body "items")).

(** A request the handler has no reason to refuse and can examine through:
    usable items and customer, every item examinable, none offending. *)
Definition acceptable (body : value) : bool :=
  negb (items_missing body)
  && negb (customer_incomplete body)
  && forallb examinable (elements (field body "items"))
  && negb (existsb offending (elements (field body "items"))).

(** The order item made from a request item: the catalog record found
    for its [productId] gives the price, the item gives the quantity. *)
Definition priced (item : value) (line : OrderItem.t) : Prop :=
  exists product quantity n,
    member item "productId" = Normal (VStr (Product.id product))
    /\ find (fun p => String.eqb (Product.id p) (Product.id product)) products
       = Some product
    /\ member item "quantity" = Normal quantity
    /\ ToNumber quantity = Normal n
    /\ (n <=? 0)%float = false
    /\ line = OrderItem.mk (Product.id product) (Product.name product)
                (Product.price product) quantity (Product.price product)
                (round2 (Product.price product * n)).

(** The order item made from a request item, with the subtotal said by
    what it is rather than by how it is computed: the catalog price times
    the quantity, taken to whole cents. *)
Definition charged (item : value) (line : OrderItem.t) : Prop :=
  exists product quantity n,
    member item "productId" = Normal (VStr (Product.id product))
    /\ find (fun p => String.eqb (Product.id p) (Product.id product)) products
       = Some product
    /\ member item "quantity" = Normal quantity
    /\ ToNumber quantity = Normal n
    /\ (n <=? 0)%float = false
    /\ OrderItem.productId line = Product.id product
    /\ OrderItem.name line = Product.name product
    /\ OrderItem.unitPrice line = Product.price product
    /\ OrderItem.price line = Product.price product
    /\ OrderItem.quantity line = quantity
    /\ in_cents (Product.price product * n) (OrderItem.subtotal line).

(** The loop answers 400 at this item: its product is unknown and the
    identifier it gave can be written into the message, or its product is
    known and its quantity converts to a number that is [<= 0]. *)
Definition refused (item : value) : bool :=
  match member item "productId" with
  | Throw => false
  | Normal productId =>
      match find_product products productId with
      | None => convertible productId
      | Some _ =>
          match ToNumber (field item "quantity") with
          | Normal n => (n <=? 0)%float
          | Throw => false
          end
      end
  end.

(** The loop answers 400 at some item, every item before it having been
    accepted (examinable and not offending). *)
Fixpoint refuses (items : list value) : bool :=
  match items with
  | [] => false
  | item :: rest =>
      refused item || (examinable item && negb (offending item) && refuses rest)
  end.

End Validation.

(** The order a request gives rise to once the loop has priced its items:
    the object literal of the handler, with the customer's fields read. *)
Definition new_order (uuid createdNow updatedNow : string) (customer : value)
    (totalAmount : float) (orderItems : list OrderItem.t) : Order.t :=
  Order.mk uuid orderItems
    (Customer.mk (field customer "name") (field customer "email")
       (or_else (field customer "address") VNull)
       (or_else (field customer "phone") VNull))
    (round2 totalAmount) "USD" (VStr "pending") createdNow (VStr updatedNow).

(** What every store the process reaches satisfies: one entry per key,
    each order filed under its own identifier, each total the rounded sum
    of the order's subtotals. *)
Definition kept (orders : Map.t Order.t) : Prop :=
  NoDup (Map.keys orders)
  /\ forall k o, In (k, o) orders -> Order.id o = k /\ total_is_sum o.

(** Two orders that differ at most in [status] and [updatedAt]. *)
Definition same_but_status (o o' : Order.t) : Prop :=
  Order.id o' = Order.id o
  /\ Order.items o' = Order.items o
  /\ Order.customer o' = Order.customer o
  /\ Order.totalAmount o' = Order.totalAmount o
  /\ Order.currency o' = Order.currency o
  /\ Order.createdAt o' = Order.createdAt o.

(** A quantity that is a number and a positive integer. *)
Definition positive_integer_quantity (quantity : value) : bool :=
  match quantity with
  | VNum n => positive_integer n
  | _ => false
  end.

(** A request to create an order. *)
Definition is_creation (req : request) : bool :=
  match req with
  | PostOrder _ _ _ _ => true
  | _ => false
  end.

(** ** A catalog and an engine for the examples *)

Module Examples.

Definition decimal_of_Z (z : Z) : string := NilZero.string_of_int (Z.to_int z).

(** [Number::toString] on NaN, the infinities, the zeros and the integers
    below 10^21, which it writes in plain decimal digits.  Other numbers
    are outside this definition (it answers the empty string); no example
    converts one. *)
Definition NumberToString_integral (x : float) : string :=
  match Prim2SF x with
  | S754_zero _ => "0"
  | S754_infinity s => if s then "-Infinity" else "Infinity"
  | S754_nan => "NaN"
  | S754_finite s m e =>
      let z := if (0 <=? e)%Z then Z.shiftl (Z.pos m) e else Z.shiftr (Z.pos m) (- e) in
      if (Z.shiftl z (- e) =? Z.pos m)%Z && (z <? 10 ^ 21)%Z
      then decimal_of_Z (if s then - z else z)
      else ""
  end.

(** [StringToNumber] on the empty string and on strings of at most
    fifteen decimal digits, whose value a binary64 number holds exactly.
    Other strings are outside this definition (it answers NaN, as the
    engine does for a string that is no numeric literal); no example
    converts one that is a literal. *)
Definition StringToNumber_digits (s : string) : float :=
  if String.eqb s "" then zero
  else if Nat.leb (String.length s) 15 then
    match NilZero.uint_of_string s with
    | Some d => PrimFloat.of_uint63 (Uint63.of_Z (Z.of_uint d))
    | None => nan
    end
  else nan.

#[export] Instance engine : Engine := {|
  NumberToString := NumberToString_integral;
  StringToNumber := StringToNumber_digits
|}.

(** The two products of the specification's worked example, and one more
    whose price has cents. *)
Definition catalog : list Product.t :=
  [ Product.mk "prod-001" "Keyboard" 10 [];
    Product.mk "prod-002" "Cable" 2.5 [];
    Product.mk "prod-003" "Mouse" 5 [] ].

Definition OMS_URL : string := "http://localhost:4000".

Definition item (productId : string) (quantity : value) : value :=
  VObj [("productId", VStr productId); ("quantity", quantity)].

Definition john : value :=
  VObj [("name", VStr "John Doe"); ("email", VStr "john@example.com");
        ("address", VStr "123 Main St, City"); ("phone", VStr "+1234567890")].

Definition order_body (items : list value) : value :=
  VObj [("items", VArr items); ("customer", john)].

(** The request of the README. *)
Definition readme_body : value :=
  order_body [item "prod-001" (VNum 2); item "prod-003" (VNum 1)].

(** The store after the README's order has been created, and that order. *)
Definition one_order : Map.t Order.t :=
  stored (create_order catalog Map.empty readme_body "id-1" "t0" "t0").

Definition readme_order : Order.t :=
  new_order "id-1" "t0" "t0" john 25
    [ OrderItem.mk "prod-001" "Keyboard" 10 (VNum 2) 10 20;
      OrderItem.mk "prod-003" "Mouse" 5 (VNum 1) 5 5 ].

(** A downstream answer that carries a status and nothing else. *)
Definition shipped : fetch_result :=
  FetchResponse true (Normal (VObj [("data", VObj [("status", VStr "shipped")])])).

(** A catalog with a price of 2.675, the nearest binary64 number to which
    is a little below it. *)
Definition sticker_catalog : list Product.t :=
  [ Product.mk "prod-004" "Sticker" (2675 / 1000) [] ].

(** A catalog with prices of 0.1 and 0.2. *)
Definition penny_catalog : list Product.t :=
  [ Product.mk "prod-005" "Washer" (1 / 10) [];
    Product.mk "prod-006" "Nut" (2 / 10) [] ].

(** One washer and one nut, ordered in the empty store. *)
Definition penny_order : Map.t Order.t :=
  stored (create_order penny_catalog Map.empty
            (order_body [item "prod-005" (VNum 1); item "prod-006" (VNum 1)])
            "id-1" "t0" "t0").

End Examples.

(** ** The insertion-ordered map *)

Module MapFacts.

Lemma get_set_same {V} (m : Map.t V) k v : Map.get (Map.set m k v) k = Some v.
Proof.
  induction m as [|[k' v'] m IH]; simpl.
  - now rewrite String.eqb_refl.
  - destruct (String.eqb k' k) eqn:E; simpl; rewrite E; auto.
Qed.

Lemma get_set_other {V} (m : Map.t V) k k' v :
  k <> k' -> Map.get (Map.set m k v) k' = Map.get m k'.
Proof.
  intros Hne. induction m as [|[k0 v0] m IH]; simpl.
  - destruct (String.eqb_spec k k'); congruence.
  - destruct (String.eqb_spec k0 k) as [->|Hk]; simpl.
    + destruct (String.eqb_spec k k'); congruence.
    + now rewrite IH.
Qed.

Lemma set_same {V} (m : Map.t V) k v : Map.get m k = Some v -> Map.set m k v = m.
Proof.
  induction m as [|[k' v'] m IH]; simpl; [discriminate|].
  destruct (String.eqb k' k); intros H.
  - congruence.
  - now rewrite IH.
Qed.

Lemma get_in_keys {V} (m : Map.t V) k : In k (Map.keys m) <-> Map.get m k <> None.
Proof.
  induction m as [|[k' v'] m IH]; simpl.
  - tauto.
  - destruct (String.eqb_spec k' k) as [->|Hk].
    + split; [discriminate | auto].
    + rewrite <- IH. split; [intros [H|H]; congruence | auto].
Qed.

Lemma get_in {V} (m : Map.t V) k v : Map.get m k = Some v -> In (k, v) m.
Proof.
  induction m as [|[k' v'] m IH]; simpl; [discriminate|].
  destruct (String.eqb_spec k' k) as [->|Hk]; intros H.
  - left. congruence.
  - right. auto.
Qed.

Lemma keys_set {V} (m : Map.t V) k v :
  Map.keys (Map.set m k v) = if in_dec string_dec k (Map.keys m)
                             then Map.keys m else (Map.keys m ++ [k])%list.
Proof.
  unfold Map.keys.
  induction m as [|[k' v'] m IH]; [reflexivity|].
  cbn [Map.set]. destruct (String.eqb_spec k' k) as [->|Hk]; cbn [map fst].
  - destruct (in_dec string_dec k (k :: map fst m)) as [_|n]; [reflexivity|].
    exfalso. apply n. now left.
  - rewrite IH.
    destruct (in_dec string_dec k (map fst m));
      destruct (in_dec string_dec k (k' :: map fst m)) as [i'|n'];
      try reflexivity.
    + exfalso. apply n'. now right.
    + destruct i' as [e|i']; [congruence|contradiction].
Qed.

Lemma keys_set_incl {V} (m : Map.t V) k v k' :
  In k' (Map.keys m) -> In k' (Map.keys (Map.set m k v)).
Proof.
  rewrite keys_set. destruct (in_dec string_dec k (Map.keys m)); auto.
  intros H. apply in_or_app. now left.
Qed.

Lemma keys_set_nodup {V} (m : Map.t V) k v :
  NoDup (Map.keys m) -> NoDup (Map.keys (Map.set m k v)).
Proof.
  intros H. rewrite keys_set. destruct (in_dec string_dec k (Map.keys m)); auto.
  apply NoDup_app; [assumption | | ].
  - constructor; [simpl; tauto | constructor].
  - intros x Hx [<-|[]]. contradiction.
Qed.

Lemma in_set {V} (m : Map.t V) k v k' v' :
  In (k', v') (Map.set m k v) -> (k' = k /\ v' = v) \/ In (k', v') m.
Proof.
  induction m as [|[k0 v0] m IH]; simpl.
  - intros [H|[]]. left. split; congruence.
  - destruct (String.eqb_spec k0 k) as [->|Hk]; simpl.
    + intros [H|H]; [left; split; congruence | auto].
    + intros [H|H]; [auto|]. destruct (IH H); auto.
Qed.

End MapFacts.

(** ** The creation loop *)

Section Loop.
Context {engine : Engine}.
Variable products : list Product.t.

Lemma find_product_string (v : value) (p : Product.t) :
  find_product products v = Some p ->
  v = VStr (Product.id p)
  /\ find (fun q => String.eqb (Product.id q) (Product.id p)) products = Some p.
Proof.
  unfold find_product. intros H.
  destruct (find_some _ _ H) as [_ Heq].
  destruct v; simpl in Heq; try discriminate.
  apply String.eqb_eq in Heq. subst s. split; [reflexivity | exact H].
Qed.

Lemma find_product_VStr (s : string) :
  find_product products (VStr s) = find (fun q => String.eqb (Product.id q) s) products.
Proof. reflexivity. Qed.

(** What one turn of the loop does with an item it accepts. *)
Lemma price_items_accept item rest totalAmount orderItems productId product quantity n :
  member item "productId" = Normal productId ->
  find_product products productId = Some product ->
  member item "quantity" = Normal quantity ->
  ToNumber quantity = Normal n ->
  (n <=? 0)%float = false ->
  price_items products (item :: rest) totalAmount orderItems
  = price_items products rest
      (totalAmount + round2 (Product.price product * n))%float
      (orderItems ++
         [OrderItem.mk (Product.id product) (Product.name product) (Product.price product)
            quantity (Product.price product) (round2 (Product.price product * n))]).
Proof.
  intros Hp Hf Hq Hn Hle. simpl. rewrite Hp. simpl. rewrite Hf, Hq. simpl.
  rewrite Hn. simpl. rewrite Hle. reflexivity.
Qed.

(** The loop ran past its last item: every item was priced from the
    catalog, in order, and the total grew by each subtotal in turn. *)
Lemma price_items_completed items : forall totalAmount orderItems totalAmount' orderItems',
  price_items products items totalAmount orderItems
  = Normal (Completed totalAmount' orderItems') ->
  exists lines,
    orderItems' = (orderItems ++ lines)%list
    /\ Forall2 (priced products) items lines
    /\ totalAmount' = fold_left PrimFloat.add (map OrderItem.subtotal lines) totalAmount.
Proof.
  induction items as [|item rest IH]; intros t acc t' acc' H.
  - simpl in H. injection H as <- <-. exists []. rewrite app_nil_r. repeat split. constructor.
  - simpl in H.
    destruct (member item "productId") as [productId|] eqn:Hp; simpl in H; [|discriminate].
    destruct (find_product products productId) as [product|] eqn:Hf.
    2:{ destruct (ToString productId); simpl in H; discriminate. }
    destruct (member item "quantity") as [quantity|] eqn:Hq; simpl in H; [|discriminate].
    destruct (ToNumber quantity) as [n|] eqn:Hn; simpl in H; [|discriminate].
    destruct (n <=? 0)%float eqn:Hle.
    { destruct (ToString productId); simpl in H; discriminate. }
    apply IH in H. destruct H as (lines & Hacc & Hall & Ht).
    destruct (find_product_string _ _ Hf) as [-> Hfind].
    eexists (_ :: lines). split; [|split].
    + rewrite Hacc, <- app_assoc. reflexivity.
    + constructor; [|exact Hall].
      exists product, quantity, n. repeat split; assumption.
    + exact Ht.
Qed.

(** The loop returned from inside: it answered 400 with a failure. *)
Lemma price_items_returned items : forall totalAmount orderItems r,
  price_items products items totalAmount orderItems = Normal (Returned r) ->
  exists msg, r = mkResponse 400 (Failure msg).
Proof.
  induction items as [|item rest IH]; intros t acc r H; simpl in H; [discriminate|].
  destruct (member item "productId") as [productId|]; simpl in H; [|discriminate].
  destruct (find_product products productId) as [product|].
  2:{ destruct (ToString productId); simpl in H; [|discriminate].
      injection H as <-. eauto. }
  destruct (member item "quantity") as [quantity|]; simpl in H; [|discriminate].
  destruct (ToNumber quantity) as [n|]; simpl in H; [|discriminate].
  destruct (n <=? 0)%float.
  - destruct (ToString productId); simpl in H; [|discriminate].
    injection H as <-. eauto.
  - eauto.
Qed.

(** The loop reads nothing of an item but [productId] and [quantity]. *)
Lemma price_items_same_lines items items' :
  Forall2 same_line items items' ->
  forall totalAmount orderItems,
    price_items products items totalAmount orderItems
    = price_items products items' totalAmount orderItems.
Proof.
  induction 1 as [|a b l l' [Hp Hq] _ IH]; intros t acc; [reflexivity|].
  simpl. rewrite Hp, Hq.
  destruct (member b "productId") as [productId|]; simpl; [|reflexivity].
  destruct (find_product products productId); [|reflexivity].
  destruct (member b "quantity") as [quantity|]; simpl; [|reflexivity].
  destruct (ToNumber quantity) as [n|]; simpl; [|reflexivity].
  destruct (n <=? 0)%float; [reflexivity|]. apply IH.
Qed.

End Loop.

(** ** Order creation, case by case *)

Section Creation.
Context {engine : Engine}.
Variable products : list Product.t.

Lemma member_field (v : value) (name : string) (x : value) :
  member v name = Normal x -> field v name = x.
Proof. unfold field. now intros ->. Qed.

Lemma member_total (v : value) (a b : string) (x : value) :
  member v a = Normal x -> member v b = Normal (field v b).
Proof. unfold field. destruct v; simpl; intros H; try discriminate; reflexivity. Qed.

Lemma truthy_member (v : value) (name : string) :
  truthy v = true -> member v name = Normal (field v name).
Proof. unfold field. destruct v; simpl; intros H; try discriminate; reflexivity. Qed.

Lemma field_member (v : value) (name : string) (x : value) :
  field v name = x -> x <> VUndefined -> member v name = Normal x.
Proof.
  unfold field. destruct (member v name); intros H Hx; congruence.
Qed.

Lemma convertible_ToNumber (v : value) :
  convertible v = true -> exists n, ToNumber v = Normal n.
Proof.
  unfold convertible, ToNumber.
  destruct v; try (intros _; eexists; reflexivity);
    destruct (ToString _); simpl; intros H; try discriminate; eexists; reflexivity.
Qed.

Lemma convertible_ToString (v : value) :
  convertible v = true -> exists s, ToString v = Normal s.
Proof.
  unfold convertible. destruct (ToString v); intros H; [eauto | discriminate].
Qed.

(** The first check: no usable [items]. *)
Lemma create_order_no_items orders body items uuid createdNow updatedNow :
  member body "items" = Normal items ->
  items_missing body = true ->
  create_order products orders body uuid createdNow updatedNow
  = reply orders 400 (Failure "Items array is required and cannot be empty").
Proof.
  intros Hm Hi. unfold create_order, create_order_try.
  rewrite (member_total _ _ "customer" _ Hm), Hm. simpl.
  unfold items_missing in Hi. rewrite (member_field _ _ _ Hm) in Hi.
  destruct items as [| |b|n|s|[|e l]|props]; simpl; try discriminate; try reflexivity.
  - destruct b; reflexivity.
  - destruct (negb _); reflexivity.
  - destruct (negb _); reflexivity.
Qed.

Lemma items_present body :
  items_missing body = false ->
  exists e l, member body "items" = Normal (VArr (e :: l)).
Proof.
  unfold items_missing. intros H.
  destruct (field body "items") as [| | | | |[|e l]|] eqn:E; try discriminate.
  exists e, l. apply field_member; [exact E | discriminate].
Qed.

Lemma customer_missing_spec body customer :
  member body "customer" = Normal customer ->
  customer_missing customer = Normal (customer_incomplete body).
Proof.
  intros Hc. unfold customer_incomplete. rewrite (member_field _ _ _ Hc).
  unfold customer_missing. destruct (truthy customer) eqn:T; simpl; [|reflexivity].
  rewrite (truthy_member _ "email" T), (truthy_member _ "name" T). simpl.
  destruct (truthy (field customer "email")), (truthy (field customer "name")); reflexivity.
Qed.

(** The second check: no usable [customer]. *)
Lemma create_order_no_customer orders body uuid createdNow updatedNow :
  items_missing body = false ->
  customer_incomplete body = true ->
  create_order products orders body uuid createdNow updatedNow
  = reply orders 400 (Failure "Customer information (name, email) is required").
Proof.
  intros Hi Hc. destruct (items_present _ Hi) as (e & l & Hm).
  unfold create_order, create_order_try.
  pose proof (member_total _ _ "customer" _ Hm) as Hcust.
  rewrite Hm, Hcust. simpl.
  rewrite (customer_missing_spec _ _ Hcust), Hc. reflexivity.
Qed.

(** Past both checks, the loop decides. *)
Lemma create_order_past_checks orders body uuid createdNow updatedNow :
  items_missing body = false ->
  customer_incomplete body = false ->
  create_order products orders body uuid createdNow updatedNow
  = match price_items products (elements (field body "items")) zero [] with
    | Throw => reply orders 500 (Failure "Internal server error")
    | Normal (Returned r) => mkOutcome r orders []
    | Normal (Completed totalAmount orderItems) =>
        let order :=
          new_order uuid createdNow updatedNow (field body "customer")
            totalAmount orderItems in
        mkOutcome (mkResponse 201 (OrderCreated "Order created successfully" order))
          (Map.set orders uuid order) []
    end.
Proof.
  intros Hi Hc. destruct (items_present _ Hi) as (e & l & Hm).
  unfold create_order, create_order_try.
  pose proof (member_total _ _ "customer" _ Hm) as Hcust.
  rewrite (member_field _ _ _ Hm).
  rewrite Hm, Hcust.
  cbv beta iota delta [bind truthy isArray elements negb orb List.length Nat.eqb].
  rewrite (customer_missing_spec _ _ Hcust), Hc.
  destruct (price_items products (e :: l) zero []) as [[r|t lines]|];
    try reflexivity.
  assert (T : truthy (field body "customer") = true).
  { unfold customer_incomplete in Hc.
    destruct (truthy (field body "customer")); [reflexivity | discriminate]. }
  rewrite !(truthy_member _ _ T). reflexivity.
Qed.

(** Every way the handler can end. *)
Lemma create_order_cases orders body uuid createdNow updatedNow :
  let out := create_order products orders body uuid createdNow updatedNow in
  out = reply orders 500 (Failure "Internal server error")
  \/ (exists msg, out = reply orders 400 (Failure msg))
  \/ (items_missing body = false
      /\ customer_incomplete body = false
      /\ exists totalAmount orderItems,
          price_items products (elements (field body "items")) zero []
          = Normal (Completed totalAmount orderItems)
          /\ out = mkOutcome
                     (mkResponse 201
                        (OrderCreated "Order created successfully"
                           (new_order uuid createdNow updatedNow (field body "customer")
                              totalAmount orderItems)))
                     (Map.set orders uuid
                        (new_order uuid createdNow updatedNow (field body "customer")
                           totalAmount orderItems)) []).
Proof.
  intros out. subst out.
  destruct (member body "items") as [items|] eqn:Hm.
  2:{ left. unfold create_order, create_order_try. rewrite Hm. reflexivity. }
  destruct (items_missing body) eqn:Hi.
  { right. left. eexists. eapply create_order_no_items; eassumption. }
  destruct (customer_incomplete body) eqn:Hc.
  { right. left. eexists. apply create_order_no_customer; assumption. }
  rewrite create_order_past_checks by assumption.
  destruct (price_items products (elements (field body "items")) zero [])
    as [[r|t lines]|] eqn:Hloop.
  - right. left. destruct (price_items_returned _ _ _ _ _ Hloop) as [msg ->].
    exists msg. reflexivity.
  - right. right. repeat split. exists t, lines. split; reflexivity.
  - left. reflexivity.
Qed.

End Creation.

(** ** One item at a time *)

Section Items.
Context {engine : Engine}.
Variable products : list Product.t.

Lemma examinable_members item :
  examinable item = true ->
  member item "productId" = Normal (field item "productId")
  /\ member item "quantity" = Normal (field item "quantity")
  /\ convertible (field item "productId") = true
  /\ convertible (field item "quantity") = true.
Proof.
  unfold examinable, field.
  destruct (member item "productId"), (member item "quantity"); try discriminate.
  intros H. apply andb_true_iff in H. tauto.
Qed.

Lemma resolved_members item product :
  find_product products (field item "productId") = Some product ->
  member item "productId" = Normal (VStr (Product.id product))
  /\ member item "quantity" = Normal (field item "quantity").
Proof.
  intros Hf. destruct (find_product_string _ _ _ Hf) as [Hid _].
  assert (Hm : member item "productId" = Normal (VStr (Product.id product))).
  { apply field_member; [exact Hid | discriminate]. }
  split; [exact Hm | exact (member_total _ _ "quantity" _ Hm)].
Qed.

(** An item with a catalog product and a quantity not [<= 0] is priced,
    and the loop goes on. *)
Lemma accept_item item product n :
  find_product products (field item "productId") = Some product ->
  ToNumber (field item "quantity") = Normal n ->
  (n <=? 0)%float = false ->
  exists line,
    priced products item line
    /\ forall rest totalAmount orderItems,
        price_items products (item :: rest) totalAmount orderItems
        = price_items products rest (totalAmount + OrderItem.subtotal line)%float
            (orderItems ++ [line]).
Proof.
  intros Hf Hn Hle. destruct (resolved_members _ _ Hf) as [Hp Hq].
  destruct (find_product_string _ _ _ Hf) as [Hid Hfind].
  eexists. split.
  - exists product, (field item "quantity"), n. repeat split; eassumption.
  - intros rest t acc. rewrite Hid in Hf.
    exact (price_items_accept products item rest t acc _ _ _ _ Hp Hf Hq Hn Hle).
Qed.

(** An item whose quantity is [<= 0] ends the loop with a 400 that names
    its product. *)
Lemma reject_quantity item product n rest totalAmount orderItems :
  find_product products (field item "productId") = Some product ->
  ToNumber (field item "quantity") = Normal n ->
  (n <=? 0)%float = true ->
  price_items products (item :: rest) totalAmount orderItems
  = Normal (Returned (mkResponse 400
              (Failure ("Invalid quantity for product: " ++ Product.id product)))).
Proof.
  intros Hf Hn Hle. destruct (resolved_members _ _ Hf) as [Hp Hq].
  destruct (find_product_string _ _ _ Hf) as [Hid _]. rewrite Hid in Hf.
  simpl. rewrite Hp. simpl. rewrite Hf, Hq. simpl. rewrite Hn. simpl.
  rewrite Hle. reflexivity.
Qed.

Lemma offending_false item :
  examinable item = true ->
  offending products item = false ->
  exists product n,
    find_product products (field item "productId") = Some product
    /\ ToNumber (field item "quantity") = Normal n
    /\ (n <=? 0)%float = false.
Proof.
  intros He Ho. destruct (examinable_members _ He) as (_ & _ & _ & Hc).
  destruct (convertible_ToNumber _ Hc) as [n Hn].
  unfold offending in Ho. rewrite Hn in Ho.
  destruct (find_product products (field item "productId")) as [product|];
    [|discriminate].
  exists product, n. auto.
Qed.

(** The items before the first offending one are priced, and the loop
    reaches what follows them. *)
Lemma prefix_accepted pre :
  forallb examinable pre = true ->
  existsb (offending products) pre = false ->
  forall totalAmount orderItems,
  exists totalAmount' lines,
    Forall2 (priced products) pre lines
    /\ forall rest,
        price_items products (pre ++ rest) totalAmount orderItems
        = price_items products rest totalAmount' (orderItems ++ lines).
Proof.
  induction pre as [|item pre IH]; intros He Ho t acc.
  - exists t, []. split; [constructor|]. intros rest. now rewrite app_nil_r.
  - simpl in He, Ho. apply andb_true_iff in He. destruct He as [He He'].
    apply orb_false_iff in Ho. destruct Ho as [Ho Ho'].
    destruct (offending_false _ He Ho) as (product & n & Hf & Hn & Hle).
    destruct (accept_item _ _ _ Hf Hn Hle) as (line & Hline & Hstep).
    destruct (IH He' Ho' (t + OrderItem.subtotal line)%float (acc ++ [line])%list)
      as (t' & lines & Hall & Hrest).
    exists t', (line :: lines). split; [constructor; assumption|].
    intros rest. rewrite <- app_comm_cons, Hstep, Hrest, <- app_assoc. reflexivity.
Qed.

(** Items that are all examinable and none offending take the loop past
    its last item. *)
Lemma all_accepted items totalAmount orderItems :
  forallb examinable items = true ->
  existsb (offending products) items = false ->
  exists totalAmount' orderItems',
    price_items products items totalAmount orderItems
    = Normal (Completed totalAmount' orderItems').
Proof.
  intros He Ho.
  destruct (prefix_accepted items He Ho totalAmount orderItems) as (t' & lines & _ & H).
  specialize (H []). rewrite app_nil_r in H. rewrite H. simpl. eauto.
Qed.

End Items.

(** ** Retrieval and the invariant of the store *)

Section Retrieval.
Context {engine : Engine}.
Variable products : list Product.t.
Variable OMS_URL : string.

Lemma refresh_frame order oms : same_but_status order (refresh order oms).
Proof.
  unfold same_but_status, refresh.
  destruct oms as [|[|] [omsData|]]; auto 7.
  destruct (member omsData "data") as [data|]; auto 7.
  destruct (truthy data); auto 7.
  destruct (member data "status"); auto 7.
  destruct (member data "updatedAt"); simpl; auto 7.
Qed.

(** With a usable [data] object the two fields are taken each on its own. *)
Lemma refresh_data order omsData data :
  member omsData "data" = Normal data ->
  truthy data = true ->
  refresh order (FetchResponse true (Normal omsData))
  = Order.set_updatedAt
      (Order.set_status order (or_else (field data "status") (Order.status order)))
      (or_else (field data "updatedAt") (Order.updatedAt order)).
Proof.
  intros Hd T. unfold refresh. rewrite Hd, T.
  rewrite !(truthy_member _ _ T). reflexivity.
Qed.

Lemma refresh_unusable order oms : no_usable_data oms = true -> refresh order oms = order.
Proof.
  destruct oms as [|[|] [omsData|]]; try reflexivity.
  intros H. simpl in H. apply andb_true_iff in H. destruct H as [Hs Hu].
  apply negb_true_iff in Hs, Hu.
  destruct (member omsData "data") as [data|] eqn:Hd.
  2:{ unfold refresh. now rewrite Hd. }
  rewrite (member_field _ _ _ Hd) in Hs, Hu.
  destruct (truthy data) eqn:T.
  2:{ unfold refresh. now rewrite Hd, T. }
  rewrite (refresh_data _ _ _ Hd T). unfold or_else. rewrite Hs, Hu.
  destruct order. reflexivity.
Qed.

Lemma total_is_sum_frame o o' : same_but_status o o' -> total_is_sum o -> total_is_sum o'.
Proof.
  unfold same_but_status, total_is_sum. intros (_ & Hi & _ & Ht & _) H. now rewrite Ht, Hi.
Qed.

Lemma new_order_total_is_sum uuid createdNow updatedNow customer items totalAmount orderItems :
  price_items products items zero [] = Normal (Completed totalAmount orderItems) ->
  total_is_sum (new_order uuid createdNow updatedNow customer totalAmount orderItems).
Proof.
  intros H. destruct (price_items_completed _ _ _ _ _ _ H) as (lines & -> & _ & ->).
  reflexivity.
Qed.

Lemma kept_set orders k o :
  kept orders -> Order.id o = k -> total_is_sum o -> kept (Map.set orders k o).
Proof.
  intros [Hnd Hall] Hid Hsum. split.
  - now apply MapFacts.keys_set_nodup.
  - intros k' o' Hin. destruct (MapFacts.in_set _ _ _ _ _ Hin) as [[-> ->]|Hin']; auto.
Qed.

Lemma handle_kept orders req :
  kept orders -> kept (stored (handle products OMS_URL orders req)).
Proof.
  intros K. destruct req as [now| |id|body uuid t1 t2|id oms|]; simpl; try exact K.
  - unfold get_product. destruct (find _ products); exact K.
  - destruct (create_order_cases products orders body uuid t1 t2)
      as [-> | [[msg ->] | (_ & _ & t & lines & Hloop & ->)]]; simpl; try exact K.
    apply kept_set; [exact K | reflexivity |].
    eapply new_order_total_is_sum. exact Hloop.
  - unfold get_order. destruct (Map.get orders id) as [order|] eqn:Hg; simpl; [|exact K].
    destruct (proj2 K _ _ (MapFacts.get_in _ _ _ Hg)) as [Hid Hsum].
    pose proof (refresh_frame order oms) as F.
    apply kept_set; [exact K | |].
    + destruct F as (-> & _). exact Hid.
    + exact (total_is_sum_frame _ _ F Hsum).
Qed.

Lemma serve_kept reqs : forall orders,
  kept orders -> kept (serve products OMS_URL orders reqs).
Proof.
  induction reqs as [|req reqs IH]; intros orders K; [exact K|].
  apply IH. now apply handle_kept.
Qed.

Lemma reachable_kept orders : reachable products OMS_URL orders -> kept orders.
Proof.
  intros [reqs <-]. apply serve_kept. split; [constructor | intros k o []].
Qed.

Lemma handle_keeps_keys orders req k :
  In k (Map.keys orders) -> In k (Map.keys (stored (handle products OMS_URL orders req))).
Proof.
  intros H. destruct req as [now| |id|body uuid t1 t2|id oms|]; simpl; try exact H.
  - unfold get_product. destruct (find _ products); exact H.
  - destruct (create_order_cases products orders body uuid t1 t2)
      as [-> | [[msg ->] | (_ & _ & t & lines & _ & ->)]]; simpl; try exact H.
    now apply MapFacts.keys_set_incl.
  - unfold get_order. destruct (Map.get orders id); simpl; [|exact H].
    now apply MapFacts.keys_set_incl.
Qed.

End Retrieval.

(** ** Rounding *)

(** [digits2_pos] counts the binary digits of a mantissa. *)
Lemma digits2_pos_bound (m : positive) : (Z.pos m < 2 ^ Z.pos (digits2_pos m))%Z.
Proof.
  induction m as [m IH|m IH|]; simpl digits2_pos.
  - rewrite Pos2Z.inj_succ, Z.pow_succ_r by lia. lia.
  - rewrite Pos2Z.inj_succ, Z.pow_succ_r by lia. lia.
  - reflexivity.
Qed.

Lemma digits2_pos_lower (m : positive) : (2 ^ (Z.pos (digits2_pos m) - 1) <= Z.pos m)%Z.
Proof.
  induction m as [m IH|m IH|]; simpl digits2_pos.
  - rewrite Pos2Z.inj_succ. replace (Z.succ (Z.pos (digits2_pos m)) - 1)%Z
      with (Z.succ (Z.pos (digits2_pos m) - 1)) by lia.
    rewrite Z.pow_succ_r by lia. lia.
  - rewrite Pos2Z.inj_succ. replace (Z.succ (Z.pos (digits2_pos m)) - 1)%Z
      with (Z.succ (Z.pos (digits2_pos m) - 1)) by lia.
    rewrite Z.pow_succ_r by lia. lia.
  - simpl. lia.
Qed.

Lemma digits2_pos_iter (d p : positive) :
  digits2_pos (Pos.iter xO p d) = (digits2_pos p + d)%positive.
Proof.
  induction d as [|d IH] using Pos.peano_ind.
  - simpl. lia.
  - rewrite Pos.iter_succ. simpl. rewrite IH. lia.
Qed.

Lemma iter_xO_value (d p : positive) : Z.pos (Pos.iter xO p d) = (Z.pos p * 2 ^ Z.pos d)%Z.
Proof.
  induction d as [|d IH] using Pos.peano_ind.
  - simpl. lia.
  - rewrite Pos.iter_succ, Pos2Z.inj_xO, IH, Pos2Z.inj_succ, Z.pow_succ_r by lia. lia.
Qed.

(** A mantissa of 53 digits with an exponent in range is kept as it is. *)
Lemma binary_round_aux_exact (s : bool) (m : positive) (e : Z) :
  Z.pos (digits2_pos m) = 53%Z -> (-1074 <= e <= 971)%Z ->
  binary_round_aux prec emax s (Z.pos m) e loc_Exact = S754_finite s m e.
Proof.
  intros D He.
  assert (F : (fexp prec emax (Zdigits2 (Z.pos m) + e) - e = 0)%Z).
  { simpl Zdigits2. rewrite D. unfold fexp, emin, prec, emax. lia. }
  unfold binary_round_aux, shr_fexp. rewrite F.
  cbn [shr shr_record_of_loc shr_m loc_of_shr_record round_nearest_even].
  rewrite F. cbn [shr shr_m].
  destruct (e <=? emax - prec)%Z eqn:L; [reflexivity|].
  apply Z.leb_gt in L. unfold emax, prec in L. lia.
Qed.

(** An integer below 2^53 is converted exactly: its mantissa is the
    integer shifted left. *)
Lemma binary_round_integer (s : bool) (p : positive) :
  (Z.pos p < 2 ^ 53)%Z ->
  exists m e, binary_round prec emax s p 0 = S754_finite s m e
              /\ (e <= 0)%Z /\ (Z.pos m = Z.pos p * 2 ^ (- e))%Z.
Proof.
  intros Hp.
  assert (Hd : (Z.pos (digits2_pos p) <= 53)%Z).
  { pose proof (digits2_pos_lower p).
    destruct (Z.le_gt_cases (Z.pos (digits2_pos p)) 53) as [H'|H']; [exact H'|].
    exfalso. assert (2 ^ 53 <= 2 ^ (Z.pos (digits2_pos p) - 1))%Z
      by (apply Z.pow_le_mono_r; lia). lia. }
  unfold binary_round.
  assert (Hfe : fexp prec emax (Z.pos (digits2_pos p) + 0) = (Z.pos (digits2_pos p) - 53)%Z).
  { unfold fexp, emin, prec, emax. lia. }
  rewrite Hfe. unfold shl_align.
  destruct (Z.pos (digits2_pos p) - 53 - 0)%Z as [|d|d] eqn:Ed; try lia.
  - exists p, 0%Z. split; [|split; [lia | simpl; lia]].
    apply binary_round_aux_exact; lia.
  - set (mz := Pos.iter xO p d).
    assert (Dz : Z.pos (digits2_pos mz) = 53%Z).
    { unfold mz. rewrite digits2_pos_iter. lia. }
    exists mz, (Z.pos (digits2_pos p) - 53)%Z. split; [|split; [lia|]].
    + apply binary_round_aux_exact; lia.
    + unfold mz. rewrite iter_xO_value. f_equal. f_equal. lia.
Qed.

Lemma of_Z_exact (n : Z) :
  (0 < n < 2 ^ 53)%Z ->
  exists m e, Prim2SF (of_uint63 (of_Z n)) = S754_finite false m e
              /\ (e <= 0)%Z /\ (Z.pos m = n * 2 ^ (- e))%Z.
Proof.
  intros Hn. rewrite of_uint63_spec.
  assert (Hz : to_Z (of_Z n) = n).
  { rewrite of_Z_spec. apply Z.mod_small. unfold wB. simpl.
    change (2 ^ 53)%Z with 9007199254740992%Z in Hn. lia. }
  rewrite Hz. destruct n as [|p|p]; try lia. simpl.
  apply binary_round_integer. lia.
Qed.

(** A mantissa has at most 53 digits. *)
Lemma mantissa_bound (x : float) s m e :
  Prim2SF x = S754_finite s m e -> (Z.pos m < 2 ^ 53)%Z.
Proof.
  intros E. pose proof (Prim2SF_valid x) as V. rewrite E in V.
  unfold valid_binary, bounded, canonical_mantissa in V.
  apply andb_true_iff in V. destruct V as [V _]. apply Z.eqb_eq in V.
  unfold fexp, emin, prec, emax in V.
  pose proof (digits2_pos_bound m) as B.
  assert (D : (Z.pos (digits2_pos m) <= 53)%Z) by lia.
  eapply Z.lt_le_trans; [exact B|]. apply Z.pow_le_mono_r; lia.
Qed.

(** The exact value of a number whose mantissa is an integer shifted left. *)
Lemma exact_integer (c : float) (s : bool) (m : positive) (e a : Z) :
  Prim2SF c = S754_finite s m e ->
  (e <= 0)%Z ->
  (Z.pos m = a * 2 ^ (- e))%Z ->
  exists qc, exact c = Some qc /\ (qc == inject_Z (if s then - a else a))%Q.
Proof.
  intros E He Hm. unfold exact. rewrite E. cbv zeta.
  assert (Hp : (0 < 2 ^ (- e))%Z) by (apply Z.pow_pos_nonneg; lia).
  eexists. split; [reflexivity|].
  destruct (0 <=? e)%Z eqn:L.
  - apply Z.leb_le in L. assert (e = 0%Z) by lia. subst e.
    change (- 0)%Z with 0%Z in Hm. rewrite Z.pow_0_r in *.
    unfold Qeq. cbn [Qnum Qden inject_Z]. destruct s; lia.
  - unfold Qeq. cbn [Qnum Qden inject_Z]. rewrite Z2Pos.id by lia.
    destruct s; lia.
Qed.

(** [Math.round] gives the nearest integer, a tie going up. *)
Lemma Math_round_rounds_half_up (y : float) : rounds_half_up y (Math_round y).
Proof.
  unfold rounds_half_up. destruct (exact y) as [q|] eqn:Eq.
  2:{ unfold exact in Eq. unfold Math_round.
      destruct (Prim2SF y); try discriminate; reflexivity. }
  unfold exact in Eq. unfold Math_round.
  destruct (Prim2SF y) as [s|s| |s m e] eqn:E; try discriminate.
  - (* zero *)
    injection Eq as <-. exists 0%Z, 0%Q. unfold exact. rewrite E.
    split; [reflexivity|]. split; [reflexivity|].
    unfold Qlt, Qle. simpl. lia.
  - set (sm := if s then Z.neg m else Z.pos m) in *. cbv zeta in Eq.
    destruct (0 <=? e)%Z eqn:He.
    + (* an integer already *)
      injection Eq as <-. exists (sm * 2 ^ e)%Z, (inject_Z (sm * 2 ^ e)).
      unfold exact. rewrite E. fold sm. cbv zeta. rewrite He.
      split; [reflexivity|]. split; [reflexivity|]. split; lra.
    + apply Z.leb_gt in He. injection Eq as <-.
      set (n := Z.shiftr (Z.shiftl sm 1 + Z.pow_pos 2 (Z.to_pos (- e)))
                  (Z.pos (Z.to_pos (- e)) + 1)).
      assert (Hk : Z.pos (Z.to_pos (- e)) = (- e)%Z) by (apply Z2Pos.id; lia).
      assert (Hn : n = ((2 * sm + 2 ^ (- e)) / 2 ^ (- e + 1))%Z).
      { unfold n. rewrite Z.shiftr_div_pow2 by lia. rewrite Z.shiftl_mul_pow2 by lia.
        rewrite Z.pow_pos_fold, Hk. f_equal. rewrite Z.pow_1_r. lia. }
      assert (Hp : (0 < 2 ^ (- e))%Z) by (apply Z.pow_pos_nonneg; lia).
      assert (Hp1 : (2 ^ (- e + 1) = 2 * 2 ^ (- e))%Z)
        by (rewrite Z.pow_add_r by lia; lia).
      assert (Hp2 : (2 <= 2 ^ (- e))%Z).
      { change 2%Z with (2 ^ 1)%Z at 1. apply Z.pow_le_mono_r; lia. }
      pose proof (Z.div_mod (2 * sm + 2 ^ (- e)) (2 ^ (- e + 1)) ltac:(lia)) as Hdm.
      pose proof (Z.mod_pos_bound (2 * sm + 2 ^ (- e)) (2 ^ (- e + 1)) ltac:(lia)) as Hmb.
      rewrite <- Hn in Hdm. rewrite Hp1 in Hdm, Hmb.
      assert (Hsm : (Z.abs sm < 2 ^ 53)%Z).
      { pose proof (mantissa_bound y s m e E). unfold sm. destruct s; simpl; lia. }
      assert (Hb : (Z.abs n < 2 ^ 53)%Z).
      { change (2 ^ 53)%Z with 9007199254740992%Z in *. nia. }
      assert (Hq : exists qc, exact
                 (if (n <? 0)%Z then (- of_uint63 (of_Z (Z.abs n)))%float
                  else if (n =? 0)%Z then (if s then neg_zero else zero)
                       else of_uint63 (of_Z (Z.abs n))) = Some qc
                 /\ (qc == inject_Z n)%Q).
      { destruct (n <? 0)%Z eqn:Hneg.
        - apply Z.ltb_lt in Hneg.
          destruct (of_Z_exact (Z.abs n) ltac:(lia)) as (m' & e' & E' & He' & Hm').
          assert (E'' : Prim2SF (- of_uint63 (of_Z (Z.abs n)))%float
                        = S754_finite true m' e').
          { rewrite FloatAxioms.opp_spec, E'. reflexivity. }
          destruct (exact_integer _ _ _ _ _ E'' He' Hm') as (qc & Hqc & Hv).
          exists qc. split; [exact Hqc|]. rewrite Hv.
          replace (- Z.abs n)%Z with n by lia. reflexivity.
        - apply Z.ltb_ge in Hneg. destruct (n =? 0)%Z eqn:Hz.
          + apply Z.eqb_eq in Hz. rewrite Hz. exists 0%Q.
            split; [destruct s; reflexivity | reflexivity].
          + apply Z.eqb_neq in Hz.
            destruct (of_Z_exact (Z.abs n) ltac:(lia)) as (m' & e' & E' & He' & Hm').
            destruct (exact_integer _ _ _ _ _ E' He' Hm') as (qc & Hqc & Hv).
            exists qc. split; [exact Hqc|]. rewrite Hv.
            replace (Z.abs n) with n by lia. reflexivity. }
      destruct Hq as (qc & Hqc & Hv).
      exists n, qc. split; [exact Hqc|]. split; [exact Hv|].
      unfold Qlt, Qle, Qminus, Qplus, Qopp. cbn [Qnum Qden inject_Z].
      rewrite !Pos2Z.inj_mul, Z2Pos.id by lia.
      split; nia.
Qed.

(** [Math.round(x * 100) / 100] takes [x] to whole cents. *)
Lemma round2_in_cents (x : float) : in_cents x (round2 x).
Proof.
  exists (Math_round (x * 100)). split; [apply Math_round_rounds_half_up | reflexivity].
Qed.

Lemma priced_charged {engine : Engine} (products : list Product.t) item line :
  priced products item line -> charged products item line.
Proof.
  intros (product & quantity & n & Hm & Hf & Hq & Hn & Hle & ->).
  exists product, quantity, n. cbn. repeat (split; [solve [assumption | reflexivity]|]).
  apply round2_in_cents.
Qed.

(** ** Properties of order creation *)

(** C1, as the code has it.  Whenever order creation answers 201, the
    order it stores under the new identifier is the one it returns; each
    of its items is made from the request item at the same place, its unit
    price being the price of the catalog record found for the item's
    [productId], and its subtotal that price times the quantity taken to
    whole cents: the binary64 product times 100, rounded to the nearest
    integer, divided by 100.  The total is the running binary64 sum of the
    subtotals taken to whole cents in the same way.  A request whose items
    agree with these on [productId] and [quantity] has the same outcome
    whatever else its items carry: a price supplied by the client is never
    read. *)
Theorem create_order_prices_from_catalog {engine : Engine} (products : list Product.t)
    (orders : Map.t Order.t) (body : value) (uuid createdNow updatedNow : string) :
  let out := create_order products orders body uuid createdNow updatedNow in
  statusCode (sent out) = 201 ->
  exists elems order,
    member body "items" = Normal (VArr elems)
    /\ json (sent out) = OrderCreated "Order created successfully" order
    /\ Map.get (stored out) uuid = Some order
    /\ Forall2 (charged products) elems (Order.items order)
    /\ in_cents (sum_amounts (map OrderItem.subtotal (Order.items order)))
         (Order.totalAmount order)
    /\ forall body' elems',
        member body' "items" = Normal (VArr elems') ->
        member body' "customer" = member body "customer" ->
        Forall2 same_line elems elems' ->
        create_order products orders body' uuid createdNow updatedNow = out.
Proof.
  intros out H201.
  destruct (create_order_cases products orders body uuid createdNow updatedNow)
    as [E | [[msg E] | (Hi & Hc & t & lines & Hloop & E)]];
    fold out in E; try (rewrite E in H201; discriminate).
  destruct (items_present _ Hi) as (e & l & Hm).
  rewrite (member_field _ _ _ Hm) in Hloop. simpl elements in Hloop.
  destruct (price_items_completed _ _ _ _ _ _ Hloop) as (lines' & Hl & Hall & Ht).
  simpl in Hl. subst lines'.
  exists (e :: l), (new_order uuid createdNow updatedNow (field body "customer") t lines).
  rewrite E. cbn [sent stored json].
  split; [exact Hm|]. split; [reflexivity|].
  split; [apply MapFacts.get_set_same|]. split.
  { clear - Hall. induction Hall as [|item line items lines' Hp _ IH]; constructor.
    - now apply priced_charged.
    - exact IH. }
  split.
  { rewrite (new_order_total_is_sum products _ _ _ _ _ _ _ Hloop). apply round2_in_cents. }
  intros body' elems' Hm' Hcust Hsame.
  assert (Hi' : items_missing body' = false).
  { unfold items_missing. rewrite (member_field _ _ _ Hm').
    inversion Hsame; reflexivity. }
  assert (Hf : field body' "customer" = field body "customer").
  { unfold field. now rewrite Hcust. }
  assert (Hc' : customer_incomplete body' = false).
  { unfold customer_incomplete. rewrite Hf. exact Hc. }
  rewrite (create_order_past_checks products orders body' _ _ _ Hi' Hc').
  rewrite (member_field _ _ _ Hm'), Hf. simpl elements.
  rewrite <- (price_items_same_lines products _ _ Hsame), Hloop. reflexivity.
Qed.

(** Two keyboards, with a client price of a quarter, and a third of a
    cable: the catalog's prices are charged, and the cable's 0.8333... is
    taken to 0.83. *)
Lemma create_order_prices_from_catalog_witness :
  let body :=
    Examples.order_body
      [ VObj [("productId", VStr "prod-001"); ("quantity", VNum 2); ("price", VNum 0.25)];
        Examples.item "prod-002" (VNum (1 / 3)) ] in
  let out :=
    create_order (engine := Examples.engine) Examples.catalog Map.empty body
      "id-1" "t0" "t0" in
  statusCode (sent out) = 201
  /\ exists order,
      Map.get (stored out) "id-1" = Some order
      /\ map OrderItem.unitPrice (Order.items order) = [10; 2.5]%float
      /\ map OrderItem.subtotal (Order.items order) = [20; 83 / 100]%float
      /\ Order.totalAmount order = (2083 / 100)%float.
Proof.
  intros body out. split; [reflexivity|].
  destruct (create_order_prices_from_catalog (engine := Examples.engine) Examples.catalog Map.empty body
              "id-1" "t0" "t0" eq_refl)
    as (elems & order & _ & Hjson & Hget & _).
  exists order. split; [exact Hget|].
  injection Hjson as <-. repeat split.
Defined.

(** C1 as stated fails: a sticker priced 2.675 in the catalog, whose
    binary64 price is a little below 2.675 and so rounds to 2.67, is
    charged 2.68 for a quantity of one, because the binary64 product
    [price * 1 * 100] is 267.5. *)
Lemma subtotal_off_by_a_cent :
  let out :=
    create_order (engine := Examples.engine) Examples.sticker_catalog Map.empty
      (Examples.order_body [Examples.item "prod-004" (VNum 1)]) "id-1" "t0" "t0" in
  exists order line,
    json (sent out) = OrderCreated "Order created successfully" order
    /\ Order.items order = [line]
    /\ nearest_cent (OrderItem.unitPrice line * 1) = Some 267%Z
    /\ nearest_cent (OrderItem.subtotal line) = Some 268%Z
    /\ OrderItem.subtotal line = (268 / 100)%float
    /\ (OrderItem.unitPrice line * 1 * 100 = 267.5)%float.
Proof.
  intros out. eexists. eexists. split; [reflexivity|]. split; [reflexivity|].
  repeat split.
Qed.

(** C9. Whenever order creation answers 201, the order has one item per
    submitted item, in submission order, carrying that item's [productId]
    and [quantity], repeated products included; and the total is the
    rounded sum over all of these items' subtotals, each counted. *)
Theorem create_order_keeps_every_item {engine : Engine} (products : list Product.t)
    (orders : Map.t Order.t) (body : value) (uuid createdNow updatedNow : string) :
  let out := create_order products orders body uuid createdNow updatedNow in
  statusCode (sent out) = 201 ->
  exists elems order,
    member body "items" = Normal (VArr elems)
    /\ json (sent out) = OrderCreated "Order created successfully" order
    /\ Map.get (stored out) uuid = Some order
    /\ length (Order.items order) = length elems
    /\ map (fun line => (Normal (VStr (OrderItem.productId line)),
                         Normal (OrderItem.quantity line))) (Order.items order)
       = map (fun item => (member item "productId", member item "quantity")) elems
    /\ Order.totalAmount order
       = round2 (fold_left PrimFloat.add (map OrderItem.subtotal (Order.items order)) zero).
Proof.
  intros out H201.
  destruct (create_order_cases products orders body uuid createdNow updatedNow)
    as [E | [[msg E] | (Hi & Hc & t & lines & Hloop & E)]];
    fold out in E; try (rewrite E in H201; discriminate).
  destruct (items_present _ Hi) as (e & l & Hm).
  rewrite (member_field _ _ _ Hm) in Hloop. simpl elements in Hloop.
  destruct (price_items_completed _ _ _ _ _ _ Hloop) as (lines' & Hl & Hall & Ht).
  simpl in Hl. subst lines'.
  exists (e :: l), (new_order uuid createdNow updatedNow (field body "customer") t lines).
  rewrite E. cbn [sent stored json new_order Order.items Order.totalAmount].
  split; [exact Hm|]. split; [reflexivity|].
  split; [apply MapFacts.get_set_same|].
  split; [symmetry; exact (Forall2_length Hall)|].
  split.
  - clear - Hall. induction Hall as [|item line items lines' Hp _ IH]; [reflexivity|].
    simpl. rewrite IH. f_equal.
    destruct Hp as (product & quantity & n & -> & _ & -> & _ & _ & ->). reflexivity.
  - rewrite Ht. reflexivity.
Qed.

(** The same product twice: two items, both charged. *)
Lemma create_order_keeps_every_item_witness :
  let body :=
    Examples.order_body
      [Examples.item "prod-001" (VNum 2); Examples.item "prod-001" (VNum 3)] in
  let out :=
    create_order (engine := Examples.engine) Examples.catalog Map.empty body
      "id-1" "t0" "t0" in
  statusCode (sent out) = 201
  /\ exists order,
      json (sent out) = OrderCreated "Order created successfully" order
      /\ length (Order.items order) = 2
      /\ Order.totalAmount order = 50%float.
Proof.
  intros body out. split; [reflexivity|].
  destruct (create_order_keeps_every_item (engine := Examples.engine) Examples.catalog Map.empty body
              "id-1" "t0" "t0" eq_refl)
    as (elems & order & _ & Hjson & _).
  exists order. split; [exact Hjson|].
  injection Hjson as <-. split; reflexivity.
Defined.

(** ** Properties of rejection *)

(** A positive number is not [<= 0]. *)
Lemma positive_not_le_zero (n : float) :
  (0 <? n)%float = true -> (n <=? 0)%float = false.
Proof.
  rewrite FloatAxioms.ltb_spec, FloatAxioms.leb_spec.
  change (Prim2SF 0) with (S754_zero false).
  destruct (Prim2SF n) as [s|s| |s m e]; try destruct s; cbn; congruence.
Qed.

Lemma priced_not_offending {engine : Engine} (products : list Product.t) items lines :
  Forall2 (priced products) items lines -> existsb (offending products) items = false.
Proof.
  induction 1 as [|item line items lines Hp _ IH]; [reflexivity|].
  simpl. rewrite IH, orb_false_r.
  destruct Hp as (product & quantity & n & Hm & Hf & Hq & Hn & Hle & _).
  unfold offending. rewrite (member_field _ _ _ Hm), (member_field _ _ _ Hq).
  rewrite find_product_VStr, Hf, Hn. exact Hle.
Qed.

Lemma ToNumber_convertible {engine : Engine} (v : value) (n : float) :
  ToNumber v = Normal n -> convertible v = true.
Proof.
  unfold convertible, ToNumber.
  destruct v; try reflexivity; destruct (ToString _); simpl; congruence.
Qed.

(** An item the loop refuses ends it with a 400, offends, and is named in
    the message when its product is unknown. *)
Lemma refused_returns {engine : Engine} (products : list Product.t) item :
  refused products item = true ->
  offending products item = true
  /\ exists msg,
      (forall rest totalAmount orderItems,
          price_items products (item :: rest) totalAmount orderItems
          = Normal (Returned (mkResponse 400 (Failure msg))))
      /\ (find_product products (field item "productId") = None ->
          exists shown, ToString (field item "productId") = Normal shown
                        /\ msg = "Product not found: " ++ shown).
Proof.
  unfold refused. intros H.
  destruct (member item "productId") as [productId|] eqn:Hp; [|discriminate].
  rewrite (member_field _ _ _ Hp).
  destruct (find_product products productId) as [product|] eqn:Hf.
  - destruct (ToNumber (field item "quantity")) as [n|] eqn:Hn; [|discriminate].
    rewrite <- (member_field _ _ _ Hp) in Hf. split.
    + unfold offending. now rewrite Hf, Hn.
    + eexists. split; [|discriminate].
      intros rest t acc. exact (reject_quantity products _ _ _ rest t acc Hf Hn H).
  - destruct (convertible_ToString _ H) as [shown Hs]. split.
    + unfold offending. now rewrite (member_field _ _ _ Hp), Hf.
    + eexists. split.
      * intros rest t acc. simpl. rewrite Hp. simpl. rewrite Hf, Hs. reflexivity.
      * intros _. exists shown. auto.
Qed.

(** When the loop refuses some item after accepting those before it, it
    answers 400, at the first offending item. *)
Lemma refuses_returns {engine : Engine} (products : list Product.t) items :
  refuses products items = true ->
  forall totalAmount orderItems,
  exists item msg,
    find (offending products) items = Some item
    /\ price_items products items totalAmount orderItems
       = Normal (Returned (mkResponse 400 (Failure msg)))
    /\ (find_product products (field item "productId") = None ->
        exists shown, ToString (field item "productId") = Normal shown
                      /\ msg = "Product not found: " ++ shown).
Proof.
  induction items as [|item rest IH]; intros H t acc; [discriminate|].
  cbn [refuses] in H. cbn [find]. destruct (refused products item) eqn:Hr.
  - destruct (refused_returns products item Hr) as (Ho & msg & Hstep & Hname).
    exists item, msg. rewrite Ho.
    split; [reflexivity|]. split; [apply Hstep | exact Hname].
  - simpl in H. apply andb_true_iff in H. destruct H as [H Hrest].
    apply andb_true_iff in H. destruct H as [He Ho]. apply negb_true_iff in Ho.
    destruct (offending_false products _ He Ho) as (product & n & Hf & Hn & Hle).
    destruct (accept_item products _ _ _ Hf Hn Hle) as (line & _ & Hstep).
    destruct (IH Hrest (t + OrderItem.subtotal line)%float (acc ++ [line])%list)
      as (it & msg & Hfind & Hloop & Hname).
    exists it, msg. rewrite Ho, Hstep.
    split; [exact Hfind|]. split; [exact Hloop | exact Hname].
Qed.

(** The loop answers from inside only when it refuses some item after
    accepting those before it. *)
Lemma returned_refuses {engine : Engine} (products : list Product.t) items :
  forall totalAmount orderItems r,
  price_items products items totalAmount orderItems = Normal (Returned r) ->
  refuses products items = true.
Proof.
  induction items as [|item rest IH]; intros t acc r H; simpl in H; [discriminate|].
  destruct (member item "productId") as [productId|] eqn:Hp; simpl in H; [|discriminate].
  cbn [refuses]. unfold refused. rewrite Hp.
  destruct (find_product products productId) as [product|] eqn:Hf.
  2:{ destruct (ToString productId) eqn:Hs; simpl in H; [|discriminate].
      unfold convertible. rewrite Hs. reflexivity. }
  destruct (member item "quantity") as [quantity|] eqn:Hq; simpl in H; [|discriminate].
  rewrite (member_field _ _ _ Hq).
  destruct (ToNumber quantity) as [n|] eqn:Hn; simpl in H; [|discriminate].
  destruct (n <=? 0)%float eqn:Hle; [reflexivity|].
  rewrite (IH _ _ _ H). simpl.
  destruct (find_product_string _ _ _ Hf) as [Hid _].
  assert (He : examinable item = true).
  { unfold examinable. rewrite Hp, Hq, Hid, (ToNumber_convertible _ _ Hn). reflexivity. }
  assert (Ho : offending products item = false).
  { unfold offending. now rewrite (member_field _ _ _ Hp), Hf, (member_field _ _ _ Hq), Hn. }
  now rewrite He, Ho.
Qed.

(** C2, as the code has it.  A request that fails validation (no usable
    items, no usable customer, or an item whose product is unknown or
    whose quantity is not positive) stores nothing and is answered with a
    failure, 400 or 500.  It is 400 exactly when the body is there and the
    failure is one the handler checks for: the items or the customer are
    unusable, or else the loop refuses an item (an unknown product whose
    identifier can be written, or a known product with a quantity that
    converts to a number [<= 0]) after accepting every item before it.
    In every other case something threw and the answer is 500.  When the
    first offending item names an unknown product, the message of the 400
    is [Product not found: ] followed by the identifier it gave. *)
Theorem create_order_rejects_invalid {engine : Engine} (products : list Product.t)
    (orders : Map.t Order.t) (body : value) (uuid createdNow updatedNow : string) :
  let out := create_order products orders body uuid createdNow updatedNow in
  fails_validation products body = true ->
  stored out = orders
  /\ success (json (sent out)) = Some false
  /\ (statusCode (sent out) = 400 \/ statusCode (sent out) = 500)
  /\ (statusCode (sent out) = 400 <->
      has_body body = true
      /\ (items_missing body = true
          \/ customer_incomplete body = true
          \/ refuses products (elements (field body "items")) = true))
  /\ (items_missing body = false ->
      customer_incomplete body = false ->
      refuses products (elements (field body "items")) = true ->
      forall item,
        find (offending products) (elements (field body "items")) = Some item ->
        find_product products (field item "productId") = None ->
        exists shown,
          ToString (field item "productId") = Normal shown
          /\ json (sent out) = Failure ("Product not found: " ++ shown)).
Proof.
  intros out Hfail.
  assert (Hgen : stored out = orders
                 /\ success (json (sent out)) = Some false
                 /\ (statusCode (sent out) = 400 \/ statusCode (sent out) = 500)).
  { destruct (create_order_cases products orders body uuid createdNow updatedNow)
      as [E | [[msg E] | (Hi & Hc & t & lines & Hloop & E)]];
      fold out in E; try (rewrite E; simpl; now auto).
    exfalso. unfold fails_validation in Hfail. rewrite Hi, Hc in Hfail. simpl in Hfail.
    destruct (price_items_completed _ _ _ _ _ _ Hloop) as (lines' & _ & Hall & _).
    rewrite (priced_not_offending _ _ _ Hall) in Hfail. discriminate. }
  destruct Hgen as (Hst & Hsucc & Hcode).
  assert (Hloop : items_missing body = false -> customer_incomplete body = false ->
                  refuses products (elements (field body "items")) = true ->
                  exists item msg,
                    find (offending products) (elements (field body "items")) = Some item
                    /\ out = mkOutcome (mkResponse 400 (Failure msg)) orders []
                    /\ (find_product products (field item "productId") = None ->
                        exists shown, ToString (field item "productId") = Normal shown
                                      /\ msg = "Product not found: " ++ shown)).
  { intros Hi Hc Ho.
    destruct (refuses_returns products _ Ho zero []) as (item & msg & Hfind & Hret & Hname).
    exists item, msg. split; [exact Hfind|]. split; [|exact Hname].
    unfold out. rewrite (create_order_past_checks products orders body _ _ _ Hi Hc), Hret.
    reflexivity. }
  split; [exact Hst|]. split; [exact Hsucc|]. split; [exact Hcode|]. split; [split|].
  - intros H400.
    destruct (member body "items") as [items|] eqn:Hm.
    2:{ exfalso. unfold out, create_order, create_order_try in H400.
        rewrite Hm in H400. discriminate. }
    split; [destruct body; try discriminate; reflexivity|].
    destruct (items_missing body) eqn:Hi; [now left|].
    destruct (customer_incomplete body) eqn:Hc; [now (right; left)|].
    right. right. unfold out in H400.
    rewrite (create_order_past_checks products orders body _ _ _ Hi Hc) in H400.
    destruct (price_items products (elements (field body "items")) zero [])
      as [[r|t lines]|] eqn:Hl; try discriminate.
    exact (returned_refuses products _ _ _ _ Hl).
  - intros [Hbody Hwhy].
    destruct (items_missing body) eqn:Hi.
    { destruct (member body "items") as [items|] eqn:Hm.
      - unfold out. rewrite (create_order_no_items products orders body items _ _ _ Hm Hi).
        reflexivity.
      - destruct body; discriminate. }
    destruct (customer_incomplete body) eqn:Hc.
    { unfold out. rewrite (create_order_no_customer products orders body _ _ _ Hi Hc).
      reflexivity. }
    destruct Hwhy as [H|[H|H]]; try discriminate.
    destruct (Hloop eq_refl eq_refl H) as (item & msg & _ & E & _). rewrite E. reflexivity.
  - intros Hi Hc Ho item Hfind Hunknown.
    destruct (Hloop Hi Hc Ho) as (item' & msg & Hfind' & E & Hname).
    assert (item' = item) by congruence. subst item'.
    destruct (Hname Hunknown) as (shown & Hs & ->).
    exists shown. split; [exact Hs|]. rewrite E. reflexivity.
Qed.

(** An order for a product the catalog does not have, with a quantity that
    could not be converted: the product is looked up first, and the 400
    names it. *)
Lemma create_order_rejects_invalid_witness :
  let body :=
    Examples.order_body
      [Examples.item "does-not-exist" (VObj [("toString", VNum 1)])] in
  let out :=
    create_order (engine := Examples.engine) Examples.catalog Map.empty body
      "id-1" "t0" "t0" in
  fails_validation (engine := Examples.engine) Examples.catalog body = true
  /\ stored out = Map.empty
  /\ statusCode (sent out) = 400
  /\ json (sent out) = Failure "Product not found: does-not-exist".
Proof.
  intros body out. split; [reflexivity|].
  destruct (create_order_rejects_invalid (engine := Examples.engine) Examples.catalog
              Map.empty body "id-1" "t0" "t0" eq_refl)
    as (Hst & _ & _ & H400 & Hname).
  split; [exact Hst|]. split.
  - apply H400. split; [reflexivity | right; right; reflexivity].
  - destruct (Hname eq_refl eq_refl eq_refl
                (Examples.item "does-not-exist" (VObj [("toString", VNum 1)]))
                eq_refl eq_refl)
      as (shown & Hs & Hjson).
    injection Hs as <-. exact Hjson.
Defined.

(** C2 as stated fails: a request with a [null] item ahead of an item for
    an unknown product fails validation, and is answered 500, not 400. *)
Lemma null_item_answered_500 :
  let body :=
    Examples.order_body [VNull; Examples.item "does-not-exist" (VNum 1)] in
  fails_validation (engine := Examples.engine) Examples.catalog body = true
  /\ find_product Examples.catalog (VStr "does-not-exist") = None
  /\ sent (create_order (engine := Examples.engine) Examples.catalog Map.empty body
             "id-1" "t0" "t0")
     = mkResponse 500 (Failure "Internal server error").
Proof. repeat split. Qed.

(** C3, as the code has it.  Let an item be reached by the loop (the items
    before it are examinable and none offends), let its [productId] find a
    catalog product, and let its quantity convert to the number [n].  If
    [n <= 0] the request is answered 400 with a message naming the product
    and nothing is stored.  If [n] is positive, integer or not, the item
    is accepted: when the items after it are accepted too, the order is
    created. *)
Theorem create_order_rejects_nonpositive_quantity {engine : Engine}
    (products : list Product.t) (orders : Map.t Order.t) (body : value)
    (uuid createdNow updatedNow : string)
    (pre : list value) (item : value) (post : list value)
    (product : Product.t) (n : float) :
  let out := create_order products orders body uuid createdNow updatedNow in
  items_missing body = false ->
  customer_incomplete body = false ->
  elements (field body "items") = (pre ++ item :: post)%list ->
  forallb examinable pre = true ->
  existsb (offending products) pre = false ->
  find_product products (field item "productId") = Some product ->
  ToNumber (field item "quantity") = Normal n ->
  ((n <=? 0)%float = true ->
   out = reply orders 400
           (Failure ("Invalid quantity for product: " ++ Product.id product)))
  /\ ((0 <? n)%float = true ->
      forallb examinable post = true ->
      existsb (offending products) post = false ->
      statusCode (sent out) = 201).
Proof.
  intros out Hi Hc Hsplit Hpe Hpo Hf Hn.
  destruct (prefix_accepted products pre Hpe Hpo zero []) as (t' & lines & _ & Hpre).
  unfold out. rewrite (create_order_past_checks products orders body _ _ _ Hi Hc).
  rewrite Hsplit, Hpre. split.
  - intros Hle. rewrite (reject_quantity products _ _ _ post _ _ Hf Hn Hle). reflexivity.
  - intros Hpos Hqe Hqo. pose proof (positive_not_le_zero n Hpos) as Hle.
    destruct (accept_item products _ _ _ Hf Hn Hle) as (line & _ & Hstep).
    rewrite Hstep.
    destruct (all_accepted products post (t' + OrderItem.subtotal line)%float
                (([] ++ lines) ++ [line])%list Hqe Hqo) as (t'' & lines' & ->).
    reflexivity.
Qed.

(** Two keyboards, then mice with a quantity of zero. *)
Lemma create_order_rejects_nonpositive_quantity_witness :
  let body :=
    Examples.order_body
      [Examples.item "prod-001" (VNum 2); Examples.item "prod-003" (VNum 0)] in
  create_order (engine := Examples.engine) Examples.catalog Map.empty body
    "id-1" "t0" "t0"
  = reply Map.empty 400 (Failure "Invalid quantity for product: prod-003").
Proof.
  intros body.
  exact (proj1
           (create_order_rejects_nonpositive_quantity (engine := Examples.engine)
              Examples.catalog Map.empty body "id-1" "t0" "t0"
              [Examples.item "prod-001" (VNum 2)] (Examples.item "prod-003" (VNum 0)) []
              (Product.mk "prod-003" "Mouse" 5 []) 0%float
              eq_refl eq_refl eq_refl eq_refl eq_refl eq_refl eq_refl)
           eq_refl).
Defined.

(** C3 as stated fails: a quantity of one and a half is not a positive
    integer, its product is in the catalog, and the order is created. *)
Lemma fractional_quantity_accepted :
  positive_integer_quantity (VNum 1.5) = false
  /\ find_product Examples.catalog (VStr "prod-001")
     = Some (Product.mk "prod-001" "Keyboard" 10 [])
  /\ statusCode
       (sent (create_order (engine := Examples.engine) Examples.catalog Map.empty
                (Examples.order_body [Examples.item "prod-001" (VNum 1.5)])
                "id-1" "t0" "t0")) = 201.
Proof. repeat split. Qed.

(** ** Properties of retrieval and listing *)

(** C4. When the order is in the store and the downstream call is rejected
    (unreachable, timed out), answers with an error status, sends a body
    that does not parse, or sends one with neither a status nor a
    timestamp to take, the handler answers 200 with the stored order as it
    was and leaves the store as it was; and whatever the downstream call
    comes to, the answer for a stored order is a 200 success. *)
Theorem get_order_survives_downstream_failure (OMS_URL : string)
    (orders : Map.t Order.t) (orderId : string) (order : Order.t) (oms : fetch_result) :
  Map.get orders orderId = Some order ->
  (no_usable_data oms = true ->
   sent (get_order OMS_URL orders orderId oms) = mkResponse 200 (OrderData order)
   /\ stored (get_order OMS_URL orders orderId oms) = orders)
  /\ statusCode (sent (get_order OMS_URL orders orderId oms)) = 200
  /\ success (json (sent (get_order OMS_URL orders orderId oms))) = Some true.
Proof.
  intros Hg. unfold get_order. rewrite Hg. cbn [sent stored statusCode json success].
  split; [|split; reflexivity].
  intros Hno. rewrite (refresh_unusable order oms Hno).
  split; [reflexivity | exact (MapFacts.set_same _ _ _ Hg)].
Qed.

(** The README's order, read while the downstream service is unreachable. *)
Lemma get_order_survives_downstream_failure_witness :
  sent (get_order Examples.OMS_URL Examples.one_order "id-1" FetchRejected)
  = mkResponse 200 (OrderData Examples.readme_order)
  /\ stored (get_order Examples.OMS_URL Examples.one_order "id-1" FetchRejected)
     = Examples.one_order.
Proof.
  exact (proj1
           (get_order_survives_downstream_failure Examples.OMS_URL Examples.one_order
              "id-1" Examples.readme_order FetchRejected eq_refl)
           eq_refl).
Defined.

Lemma values_once (orders : Map.t Order.t) (k : string) (o : Order.t) :
  kept orders ->
  Map.get orders k = Some o ->
  exists before after,
    Map.values orders = (before ++ o :: after)%list
    /\ forall o', In o' (before ++ after) -> Order.id o' <> Order.id o.
Proof.
  intros [Hnd Hall] Hg.
  pose proof (MapFacts.get_in _ _ _ Hg) as Hin.
  destruct (in_split _ _ Hin) as (l1 & l2 & E).
  exists (map snd l1), (map snd l2). split.
  - unfold Map.values. rewrite E, map_app. reflexivity.
  - intros o' Ho'. rewrite <- map_app in Ho'.
    apply in_map_iff in Ho'. destruct Ho' as ([k' o''] & Heq & Hin'). simpl in Heq. subst o''.
    assert (Hk' : Order.id o' = k').
    { apply (Hall k' o'). rewrite E. apply in_app_or in Hin'. apply in_or_app.
      destruct Hin'; [left | right; right]; assumption. }
    assert (Hk : Order.id o = k) by (apply (Hall k o); exact Hin).
    rewrite Hk', Hk. intros ->.
    unfold Map.keys in Hnd. rewrite E, map_app in Hnd. simpl in Hnd.
    apply NoDup_remove_2 in Hnd. apply Hnd. rewrite <- map_app.
    apply in_map_iff. exists (k, o'). auto.
Qed.

(** C5. After a creation that answered 201 in a store the process can
    reach, the listing answers 200 with the stored orders and their
    number; the created order, exactly as the creation returned it (items,
    total and customer included), is among them, and no other listed order
    has its identifier.  The listing fetches nothing and leaves the store
    as it is. *)
Theorem created_order_listed_once {engine : Engine} (products : list Product.t)
    (OMS_URL : string) (orders : Map.t Order.t) (body : value)
    (uuid createdNow updatedNow : string) (message : string) (order : Order.t) :
  let created := create_order products orders body uuid createdNow updatedNow in
  let listed := list_orders (stored created) in
  reachable products OMS_URL orders ->
  sent created = mkResponse 201 (OrderCreated message order) ->
  exists before after,
    sent listed
    = mkResponse 200 (OrderList (before ++ order :: after) (length (stored created)))
    /\ length (before ++ order :: after) = length (stored created)
    /\ (forall o, In o (before ++ after) -> Order.id o <> Order.id order)
    /\ fetched listed = []
    /\ stored listed = stored created.
Proof.
  intros created listed Hreach H201.
  pose proof (reachable_kept _ _ _ Hreach) as K.
  destruct (create_order_cases products orders body uuid createdNow updatedNow)
    as [E | [[msg E] | (_ & _ & t & lines & Hloop & E)]];
    fold created in E; try (rewrite E in H201; discriminate).
  rewrite E in H201. cbn [sent] in H201. injection H201 as _ Horder.
  assert (K' : kept (stored created)).
  { rewrite E. cbn [stored]. apply kept_set; [exact K | reflexivity |].
    exact (new_order_total_is_sum products _ _ _ _ _ _ _ Hloop). }
  assert (Hg : Map.get (stored created) uuid = Some order).
  { rewrite E. cbn [stored]. rewrite MapFacts.get_set_same. now f_equal. }
  destruct (values_once _ _ _ K' Hg) as (before & after & Hv & Hother).
  exists before, after. unfold listed, list_orders, reply. cbn [sent stored fetched].
  rewrite Hv.
  assert (Hlen : length (before ++ order :: after) = length (stored created)).
  { rewrite <- Hv. apply length_map. }
  rewrite Hlen. auto.
Qed.

(** The README's order, created in the empty store and listed. *)
Lemma created_order_listed_once_witness :
  sent (list_orders Examples.one_order)
  = mkResponse 200 (OrderList [Examples.readme_order] 1)
  /\ fetched (list_orders Examples.one_order) = [].
Proof.
  destruct (created_order_listed_once (engine := Examples.engine) Examples.catalog
              Examples.OMS_URL Map.empty Examples.readme_body "id-1" "t0" "t0"
              "Order created successfully" Examples.readme_order
              (ex_intro _ [] eq_refl) eq_refl)
    as (before & after & _ & _ & _ & Hf & _).
  split; [reflexivity | exact Hf].
Defined.

(** C6, as the code has it.  Retrieval leaves every stored order under its
    key with the same [id], [items], [customer], [totalAmount], [currency]
    and [createdAt]; orders other than the one retrieved are not changed
    at all; and in a store the process can reach, the total is still what
    creation made it: the binary64 sum of the items' subtotals taken to
    whole cents, [Math.round(sum * 100) / 100]. *)
Theorem get_order_changes_status_only {engine : Engine} (products : list Product.t)
    (OMS_URL : string) (orders : Map.t Order.t) (orderId : string) (oms : fetch_result)
    (k : string) (o : Order.t) :
  let out := get_order OMS_URL orders orderId oms in
  reachable products OMS_URL orders ->
  Map.get orders k = Some o ->
  exists o',
    Map.get (stored out) k = Some o'
    /\ Order.id o' = Order.id o
    /\ Order.items o' = Order.items o
    /\ Order.customer o' = Order.customer o
    /\ Order.totalAmount o' = Order.totalAmount o
    /\ Order.currency o' = Order.currency o
    /\ Order.createdAt o' = Order.createdAt o
    /\ (k <> orderId -> o' = o)
    /\ (k = orderId -> json (sent out) = OrderData o')
    /\ Order.totalAmount o'
       = round2 (sum_amounts (map OrderItem.subtotal (Order.items o')))
    /\ in_cents (sum_amounts (map OrderItem.subtotal (Order.items o')))
         (Order.totalAmount o').
Proof.
  intros out Hreach Hg.
  pose proof (reachable_kept _ _ _ Hreach) as K.
  destruct (proj2 K _ _ (MapFacts.get_in _ _ _ Hg)) as [_ Hsum].
  assert (Hcents : forall o1, total_is_sum o1 ->
            in_cents (sum_amounts (map OrderItem.subtotal (Order.items o1)))
              (Order.totalAmount o1)).
  { intros o1 H1. rewrite H1. apply round2_in_cents. }
  unfold out, get_order.
  destruct (Map.get orders orderId) as [order|] eqn:Hgo; cbn [stored sent json].
  - destruct (String.eqb_spec orderId k) as [->|Hne].
    + assert (order = o) by congruence. subst order.
      exists (refresh o oms). rewrite MapFacts.get_set_same.
      pose proof (refresh_frame o oms) as F.
      pose proof (total_is_sum_frame _ _ F Hsum) as Hsum'.
      destruct F as (F1 & F2 & F3 & F4 & F5 & F6).
      repeat (split; [solve [assumption | reflexivity | congruence]|]). exact (Hcents _ Hsum').
    + exists o. rewrite (MapFacts.get_set_other _ _ _ _ Hne).
      repeat (split; [solve [assumption | reflexivity | congruence]|]). exact (Hcents _ Hsum).
  - exists o. repeat (split; [solve [assumption | reflexivity | congruence]|]).
    exact (Hcents _ Hsum).
Qed.

(** A washer at 0.1 and a nut at 0.2, retrieved when the downstream
    service says the order has shipped: the status changes, and the total
    stays 0.3. *)
Lemma get_order_changes_status_only_witness :
  exists o',
    Map.get
      (stored (get_order Examples.OMS_URL Examples.penny_order "id-1" Examples.shipped))
      "id-1" = Some o'
    /\ Order.status o' = VStr "shipped"
    /\ map OrderItem.subtotal (Order.items o') = [1 / 10; 2 / 10]%float
    /\ Order.totalAmount o' = (30 / 100)%float.
Proof.
  destruct (get_order_changes_status_only (engine := Examples.engine)
              Examples.penny_catalog Examples.OMS_URL Examples.penny_order "id-1"
              Examples.shipped "id-1" _
              (ex_intro _
                 [PostOrder
                    (Examples.order_body
                       [Examples.item "prod-005" (VNum 1); Examples.item "prod-006" (VNum 1)])
                    "id-1" "t0" "t0"]
                 eq_refl)
              eq_refl)
    as (o' & Hg & _ & Hi & _ & Ht & _).
  exists o'. split; [exact Hg|].
  split; [injection Hg as <-; reflexivity|].
  split; [rewrite Hi; reflexivity | rewrite Ht; reflexivity].
Defined.

(** C6 as stated fails: the same order, in a store the process reaches by
    one creation, has a total of 0.3 after retrieval, while the binary64
    sum of its subtotals 0.1 and 0.2 is 0.30000000000000004. *)
Lemma total_differs_from_plain_sum :
  serve (engine := Examples.engine) Examples.penny_catalog Examples.OMS_URL Map.empty
    [PostOrder
       (Examples.order_body
          [Examples.item "prod-005" (VNum 1); Examples.item "prod-006" (VNum 1)])
       "id-1" "t0" "t0"]
  = Examples.penny_order
  /\ exists o,
      Map.get
        (stored (get_order Examples.OMS_URL Examples.penny_order "id-1" Examples.shipped))
        "id-1" = Some o
      /\ Order.totalAmount o = (30 / 100)%float
      /\ sum_amounts (map OrderItem.subtotal (Order.items o)) = (1 / 10 + 2 / 10)%float
      /\ PrimFloat.eqb (Order.totalAmount o)
           (sum_amounts (map OrderItem.subtotal (Order.items o))) = false.
Proof.
  split; [reflexivity|]. eexists. split; [reflexivity|]. repeat split.
Qed.

(** C7. Whatever requests are served, one after the other, an identifier
    under which an order is stored still has an order stored under it. *)
Theorem orders_never_removed {engine : Engine} (products : list Product.t)
    (OMS_URL : string) (reqs : list request) (orders : Map.t Order.t)
    (k : string) (o : Order.t) :
  Map.get orders k = Some o ->
  exists o', Map.get (serve products OMS_URL orders reqs) k = Some o'.
Proof.
  intros Hg.
  assert (Hin : In k (Map.keys orders)).
  { apply MapFacts.get_in_keys. congruence. }
  assert (Hin' : In k (Map.keys (serve products OMS_URL orders reqs))).
  { clear Hg. revert orders Hin.
    induction reqs as [|req reqs IH]; intros orders Hin; [exact Hin|].
    apply IH. now apply handle_keeps_keys. }
  apply MapFacts.get_in_keys in Hin'.
  destruct (Map.get (serve products OMS_URL orders reqs) k) as [o'|]; [eauto | congruence].
Qed.

(** The README's order after every kind of request, a second creation
    under another identifier among them. *)
Lemma orders_never_removed_witness :
  exists o',
    Map.get
      (serve (engine := Examples.engine) Examples.catalog Examples.OMS_URL
         Examples.one_order
         [ GetHealth "t1"; GetProducts; GetProduct "prod-002";
           PostOrder Examples.readme_body "id-2" "t1" "t1";
           GetOrder "id-1" Examples.shipped; GetOrder "id-9" FetchRejected;
           PostOrder VNull "id-3" "t2" "t2"; GetOrders ])
      "id-1" = Some o'.
Proof.
  exact (orders_never_removed (engine := Examples.engine) Examples.catalog
           Examples.OMS_URL _ Examples.one_order "id-1" Examples.readme_order eq_refl).
Defined.

(** C8. A product identifier that no catalog record has is answered 404
    with the failure [Product not found]; an order identifier that is not
    in the store is answered 404 with a failure, whatever the downstream
    service would say, and the store is left as it is. *)
Theorem unknown_ids_answer_404 (products : list Product.t) (OMS_URL : string)
    (orders : Map.t Order.t) (id : string) (oms : fetch_result) :
  ((forall p, In p products -> Product.id p <> id) ->
   sent (get_product products orders id) = mkResponse 404 (Failure "Product not found")
   /\ success (json (sent (get_product products orders id))) = Some false)
  /\ (Map.get orders id = None ->
      statusCode (sent (get_order OMS_URL orders id oms)) = 404
      /\ success (json (sent (get_order OMS_URL orders id oms))) = Some false
      /\ stored (get_order OMS_URL orders id oms) = orders).
Proof.
  split.
  - intros Hno. unfold get_product.
    destruct (find (fun p => String.eqb (Product.id p) id) products) as [p|] eqn:Hf.
    + destruct (find_some _ _ Hf) as [Hin Heq]. apply String.eqb_eq in Heq.
      exfalso. exact (Hno p Hin Heq).
    + split; reflexivity.
  - intros Hg. unfold get_order. rewrite Hg. repeat split.
Qed.

(** The specification's example, and an order never created. *)
Lemma unknown_ids_answer_404_witness :
  sent (get_product Examples.catalog Examples.one_order "does-not-exist")
  = mkResponse 404 (Failure "Product not found")
  /\ statusCode (sent (get_order Examples.OMS_URL Examples.one_order "id-9" Examples.shipped))
     = 404.
Proof.
  destruct (unknown_ids_answer_404 Examples.catalog Examples.OMS_URL Examples.one_order
              "does-not-exist" Examples.shipped) as [Hp _].
  destruct (unknown_ids_answer_404 Examples.catalog Examples.OMS_URL Examples.one_order
              "id-9" Examples.shipped) as [_ Ho].
  split.
  - apply Hp. intros p [<-|[<-|[<-|[]]]]; discriminate.
  - apply Ho. reflexivity.
Defined.

(** C10. When the downstream call succeeds with a body whose [data] is
    truthy, the retrieved order, which is also the stored one, has for
    status the downstream status if that is truthy and the local one if
    not, and likewise, on its own, for [updatedAt]: a field that is absent
    or the empty string leaves the local field as it was. *)
Theorem refresh_takes_truthy_fields (OMS_URL : string) (orders : Map.t Order.t)
    (orderId : string) (order : Order.t) (omsData data : value) :
  let out := get_order OMS_URL orders orderId (FetchResponse true (Normal omsData)) in
  Map.get orders orderId = Some order ->
  member omsData "data" = Normal data ->
  truthy data = true ->
  exists order',
    json (sent out) = OrderData order'
    /\ Map.get (stored out) orderId = Some order'
    /\ Order.status order'
       = (if truthy (field data "status") then field data "status"
          else Order.status order)
    /\ Order.updatedAt order'
       = (if truthy (field data "updatedAt") then field data "updatedAt"
          else Order.updatedAt order)
    /\ (field data "status" = VUndefined \/ field data "status" = VStr "" ->
        Order.status order' = Order.status order)
    /\ (field data "updatedAt" = VUndefined \/ field data "updatedAt" = VStr "" ->
        Order.updatedAt order' = Order.updatedAt order).
Proof.
  intros out Hg Hd T. unfold out, get_order. rewrite Hg. cbn [sent stored json].
  eexists. split; [reflexivity|]. split; [apply MapFacts.get_set_same|].
  rewrite (refresh_data order omsData data Hd T). unfold or_else.
  cbn [Order.status Order.updatedAt Order.set_status Order.set_updatedAt].
  split; [reflexivity|]. split; [reflexivity|].
  split; intros [->| ->]; reflexivity.
Qed.

(** The downstream service sends a status and no timestamp. *)
Lemma refresh_takes_truthy_fields_witness :
  exists order',
    json (sent (get_order Examples.OMS_URL Examples.one_order "id-1" Examples.shipped))
    = OrderData order'
    /\ Order.status order' = VStr "shipped"
    /\ Order.updatedAt order' = VStr "t0".
Proof.
  destruct (refresh_takes_truthy_fields Examples.OMS_URL Examples.one_order "id-1"
              Examples.readme_order
              (VObj [("data", VObj [("status", VStr "shipped")])])
              (VObj [("status", VStr "shipped")]) eq_refl eq_refl eq_refl)
    as (order' & Hj & _ & Hs & Hu & _).
  exists order'. split; [exact Hj|]. split; [exact Hs | exact Hu].
Defined.

(** ** Further properties of the handlers *)

Lemma set_fresh {V} (m : Map.t V) k v :
  Map.get m k = None -> Map.set m k v = (m ++ [(k, v)])%list.
Proof.
  induction m as [|[k' v'] m IH]; simpl; [reflexivity|].
  destruct (String.eqb k' k); [discriminate|]. intros H. now rewrite IH.
Qed.

Lemma set_set {V} (m : Map.t V) k v v' :
  Map.set (Map.set m k v) k v' = Map.set m k v'.
Proof.
  induction m as [|[k0 v0] m IH]; simpl.
  - now rewrite String.eqb_refl.
  - destruct (String.eqb k0 k) eqn:E; simpl; rewrite E; [reflexivity | now rewrite IH].
Qed.

Lemma priced_examinable {engine : Engine} (products : list Product.t) items lines :
  Forall2 (priced products) items lines -> forallb examinable items = true.
Proof.
  induction 1 as [|item line items lines Hp _ IH]; [reflexivity|].
  simpl. rewrite IH, andb_true_r.
  destruct Hp as (product & quantity & n & Hm & _ & Hq & Hn & _).
  unfold examinable. rewrite Hm, Hq. rewrite (ToNumber_convertible _ _ Hn). reflexivity.
Qed.

(** X1. The checks come in a fixed order.  For a body that is there, the
    items message is the answer whenever the items are unusable, whatever
    the customer is; and with usable items the customer message is the
    answer whenever the customer is unusable, whatever the items hold. *)
Theorem validation_order {engine : Engine} (products : list Product.t)
    (orders : Map.t Order.t) (body : value) (uuid createdNow updatedNow : string) :
  let out := create_order products orders body uuid createdNow updatedNow in
  member body "items" <> Throw ->
  (items_missing body = true ->
   out = reply orders 400 (Failure "Items array is required and cannot be empty"))
  /\ (items_missing body = false ->
      customer_incomplete body = true ->
      out = reply orders 400 (Failure "Customer information (name, email) is required")).
Proof.
  intros out Hbody. split.
  - intros Hi. destruct (member body "items") as [items|] eqn:Hm; [|congruence].
    exact (create_order_no_items products orders body items _ _ _ Hm Hi).
  - intros Hi Hc. exact (create_order_no_customer products orders body _ _ _ Hi Hc).
Qed.

(** No items and no customer: the items message; a [null] item, an item
    for an unknown product and a customer without email: the customer
    message. *)
Lemma validation_order_witness :
  create_order (engine := Examples.engine) Examples.catalog Map.empty (VObj [])
    "id-1" "t0" "t0"
  = reply Map.empty 400 (Failure "Items array is required and cannot be empty")
  /\ create_order (engine := Examples.engine) Examples.catalog Map.empty
       (VObj [("items", VArr [VNull; Examples.item "does-not-exist" (VNum 0)]);
              ("customer", VObj [("name", VStr "John Doe")])])
       "id-1" "t0" "t0"
     = reply Map.empty 400 (Failure "Customer information (name, email) is required").
Proof.
  split.
  - apply (validation_order (engine := Examples.engine) Examples.catalog Map.empty
             (VObj []) "id-1" "t0" "t0"); [discriminate | reflexivity].
  - apply (validation_order (engine := Examples.engine) Examples.catalog Map.empty
             (VObj [("items", VArr [VNull; Examples.item "does-not-exist" (VNum 0)]);
                    ("customer", VObj [("name", VStr "John Doe")])])
             "id-1" "t0" "t0"); [discriminate | reflexivity | reflexivity].
Defined.

(** X2. The requests that create an order are exactly the acceptable
    ones: usable items and customer, every item examinable (so that
    nothing throws), no item with an unknown product or a quantity
    [<= 0]. *)
Theorem create_order_accepts_exactly {engine : Engine} (products : list Product.t)
    (orders : Map.t Order.t) (body : value) (uuid createdNow updatedNow : string) :
  statusCode (sent (create_order products orders body uuid createdNow updatedNow)) = 201
  <-> acceptable products body = true.
Proof.
  unfold acceptable. split.
  - intros H201.
    destruct (create_order_cases products orders body uuid createdNow updatedNow)
      as [E | [[msg E] | (Hi & Hc & t & lines & Hloop & _)]];
      try (rewrite E in H201; discriminate).
    destruct (price_items_completed _ _ _ _ _ _ Hloop) as (lines' & _ & Hall & _).
    rewrite Hi, Hc, (priced_examinable _ _ _ Hall), (priced_not_offending _ _ _ Hall).
    reflexivity.
  - intros H.
    apply andb_true_iff in H. destruct H as [H Ho].
    apply andb_true_iff in H. destruct H as [H He].
    apply andb_true_iff in H. destruct H as [Hi Hc].
    apply negb_true_iff in Hi, Hc, Ho.
    rewrite (create_order_past_checks products orders body _ _ _ Hi Hc).
    destruct (all_accepted products (elements (field body "items")) zero [] He Ho)
      as (t & lines & ->).
    reflexivity.
Qed.

(** X3. The order a creation returns is stored under the generated
    identifier, is pending, in USD, stamped with the two clock readings,
    and its customer is a snapshot of the request's: name and email as
    given (both truthy), address and phone as given or [null]. *)
Theorem created_order_fields {engine : Engine} (products : list Product.t)
    (orders : Map.t Order.t) (body : value) (uuid createdNow updatedNow : string)
    (message : string) (order : Order.t) :
  let out := create_order products orders body uuid createdNow updatedNow in
  sent out = mkResponse 201 (OrderCreated message order) ->
  let customer := field body "customer" in
  Map.get (stored out) uuid = Some order
  /\ Order.id order = uuid
  /\ Order.status order = VStr "pending"
  /\ Order.currency order = "USD"
  /\ Order.createdAt order = createdNow
  /\ Order.updatedAt order = VStr updatedNow
  /\ Customer.name (Order.customer order) = field customer "name"
  /\ truthy (field customer "name") = true
  /\ Customer.email (Order.customer order) = field customer "email"
  /\ truthy (field customer "email") = true
  /\ Customer.address (Order.customer order)
     = (if truthy (field customer "address") then field customer "address" else VNull)
  /\ Customer.phone (Order.customer order)
     = (if truthy (field customer "phone") then field customer "phone" else VNull).
Proof.
  intros out H201 customer.
  destruct (create_order_cases products orders body uuid createdNow updatedNow)
    as [E | [[msg E] | (_ & Hc & t & lines & _ & E)]];
    fold out in E; try (rewrite E in H201; discriminate).
  rewrite E in H201. cbn [sent] in H201. injection H201 as _ <-.
  rewrite E. cbn [stored]. rewrite MapFacts.get_set_same.
  unfold customer_incomplete in Hc. fold customer in Hc.
  apply orb_false_iff in Hc. destruct Hc as [Hc He].
  apply orb_false_iff in Hc. destruct Hc as [_ Hn].
  apply negb_false_iff in He, Hn.
  repeat split; assumption.
Qed.

(** An order from a customer who gives no address and no phone. *)
Lemma created_order_fields_witness :
  exists order,
    Map.get
      (stored (create_order (engine := Examples.engine) Examples.catalog Map.empty
                 (VObj [("items", VArr [Examples.item "prod-002" (VNum 4)]);
                        ("customer",
                         VObj [("name", VStr "Ann"); ("email", VStr "ann@example.com")])])
                 "id-7" "t0" "t1"))
      "id-7" = Some order
    /\ Order.status order = VStr "pending"
    /\ Order.updatedAt order = VStr "t1"
    /\ Customer.address (Order.customer order) = VNull
    /\ Customer.phone (Order.customer order) = VNull.
Proof.
  eexists.
  destruct (created_order_fields (engine := Examples.engine) Examples.catalog Map.empty
              (VObj [("items", VArr [Examples.item "prod-002" (VNum 4)]);
                     ("customer",
                      VObj [("name", VStr "Ann"); ("email", VStr "ann@example.com")])])
              "id-7" "t0" "t1" _ _ eq_refl)
    as (Hg & _ & Hs & _ & _ & Hu & _ & _ & _ & _ & Ha & Hp).
  split; [exact Hg|]. split; [exact Hs|]. split; [exact Hu|].
  split; [exact Ha | exact Hp].
Defined.

(** X4. An order that was just created can be fetched under its
    identifier: while the downstream service has nothing usable to say,
    retrieval answers 200 with the order exactly as creation returned it,
    and changes nothing. *)
Theorem created_order_can_be_fetched {engine : Engine} (products : list Product.t)
    (OMS_URL : string) (orders : Map.t Order.t) (body : value)
    (uuid createdNow updatedNow : string) (message : string) (order : Order.t)
    (oms : fetch_result) :
  let created := create_order products orders body uuid createdNow updatedNow in
  let fetched_back := get_order OMS_URL (stored created) uuid oms in
  sent created = mkResponse 201 (OrderCreated message order) ->
  no_usable_data oms = true ->
  sent fetched_back = mkResponse 200 (OrderData order)
  /\ stored fetched_back = stored created.
Proof.
  intros created fetched_back H201 Hno.
  assert (Hg : Map.get (stored created) uuid = Some order).
  { destruct (create_order_cases products orders body uuid createdNow updatedNow)
      as [E | [[msg E] | (_ & _ & t & lines & _ & E)]];
      fold created in E; try (rewrite E in H201; discriminate).
    rewrite E in H201. cbn [sent] in H201. injection H201 as _ <-.
    rewrite E. apply MapFacts.get_set_same. }
  unfold fetched_back, get_order. rewrite Hg. cbn [sent stored].
  rewrite (refresh_unusable order oms Hno).
  split; [reflexivity | exact (MapFacts.set_same _ _ _ Hg)].
Qed.

(** The README's order, created and read back while the downstream
    service answers 503. *)
Lemma created_order_can_be_fetched_witness :
  sent (get_order Examples.OMS_URL
          (stored (create_order (engine := Examples.engine) Examples.catalog Map.empty
                     Examples.readme_body "id-1" "t0" "t0"))
          "id-1" (FetchResponse false Throw))
  = mkResponse 200 (OrderData Examples.readme_order).
Proof.
  exact (proj1
           (created_order_can_be_fetched (engine := Examples.engine) Examples.catalog
              Examples.OMS_URL Map.empty Examples.readme_body "id-1" "t0" "t0"
              "Order created successfully" Examples.readme_order
              (FetchResponse false Throw) eq_refl eq_refl)).
Defined.

(** X5. What a retrieval took from the downstream service stays: a later
    retrieval of the same order, made while the downstream service has
    nothing usable to say, sends the order the earlier one sent. *)
Theorem refreshed_order_persists (OMS_URL : string) (orders : Map.t Order.t)
    (orderId : string) (order : Order.t) (oms later : fetch_result) :
  Map.get orders orderId = Some order ->
  no_usable_data later = true ->
  sent (get_order OMS_URL (stored (get_order OMS_URL orders orderId oms)) orderId later)
  = sent (get_order OMS_URL orders orderId oms).
Proof.
  intros Hg Hno. unfold get_order at 2 3. rewrite Hg. cbn [stored sent].
  unfold get_order. rewrite MapFacts.get_set_same. cbn [sent].
  now rewrite (refresh_unusable _ later Hno).
Qed.

(** The README's order is reported shipped, then the downstream service
    becomes unreachable: the order is still sent as shipped. *)
Lemma refreshed_order_persists_witness :
  exists order,
    sent (get_order Examples.OMS_URL
            (stored (get_order Examples.OMS_URL Examples.one_order "id-1" Examples.shipped))
            "id-1" FetchRejected)
    = mkResponse 200 (OrderData order)
    /\ Order.status order = VStr "shipped".
Proof.
  eexists. split.
  - rewrite (refreshed_order_persists Examples.OMS_URL Examples.one_order "id-1"
               Examples.readme_order Examples.shipped FetchRejected eq_refl eq_refl).
    reflexivity.
  - reflexivity.
Defined.

Lemma or_else_idempotent (a b : value) : or_else a (or_else a b) = or_else a b.
Proof. unfold or_else. destruct (truthy a); reflexivity. Qed.

Lemma refresh_idempotent (order : Order.t) (oms : fetch_result) :
  refresh (refresh order oms) oms = refresh order oms.
Proof.
  destruct oms as [|[|] [omsData|]]; try reflexivity.
  destruct (member omsData "data") as [data|] eqn:Hd.
  2:{ unfold refresh. now rewrite Hd. }
  destruct (truthy data) eqn:T.
  2:{ unfold refresh. now rewrite Hd, T. }
  rewrite !(refresh_data _ _ _ Hd T). destruct order.
  cbn [Order.status Order.updatedAt Order.set_status Order.set_updatedAt
       Order.id Order.items Order.customer Order.totalAmount Order.currency
       Order.createdAt].
  now rewrite !or_else_idempotent.
Qed.

(** X6. Retrieval is idempotent in the downstream answer: asking again and
    getting the same answer from the downstream service gives the same
    response, the same store and the same fetch. *)
Theorem get_order_idempotent (OMS_URL : string) (orders : Map.t Order.t)
    (orderId : string) (oms : fetch_result) :
  get_order OMS_URL (stored (get_order OMS_URL orders orderId oms)) orderId oms
  = get_order OMS_URL orders orderId oms.
Proof.
  unfold get_order at 2 3.
  destruct (Map.get orders orderId) as [order|] eqn:Hg; cbn [stored reply].
  - unfold get_order. rewrite MapFacts.get_set_same, refresh_idempotent, set_set.
    reflexivity.
  - unfold get_order. rewrite Hg. reflexivity.
Qed.

(** X7. A request leaves the store's identifiers, in their order, as they
    were, or adds one at the end; it adds one only when it is a creation
    answered 201 whose generated identifier was not in the store. *)
Theorem store_grows_by_creation_only {engine : Engine} (products : list Product.t)
    (OMS_URL : string) (orders : Map.t Order.t) (req : request) :
  let out := handle products OMS_URL orders req in
  Map.keys (stored out) = Map.keys orders
  \/ exists body uuid createdNow updatedNow,
      req = PostOrder body uuid createdNow updatedNow
      /\ statusCode (sent out) = 201
      /\ Map.get orders uuid = None
      /\ Map.keys (stored out) = (Map.keys orders ++ [uuid])%list.
Proof.
  intros out. subst out.
  destruct req as [now| |id|body uuid t1 t2|id oms|]; simpl; auto.
  - unfold get_product. destruct (find _ products); auto.
  - destruct (create_order_cases products orders body uuid t1 t2)
      as [-> | [[msg ->] | (_ & _ & t & lines & _ & ->)]]; simpl; auto.
    rewrite MapFacts.keys_set.
    destruct (in_dec string_dec uuid (Map.keys orders)) as [Hin|Hout]; auto.
    right. exists body, uuid, t1, t2. repeat split.
    destruct (Map.get orders uuid) eqn:Hg; [|reflexivity].
    exfalso. apply Hout. apply MapFacts.get_in_keys. congruence.
  - unfold get_order. destruct (Map.get orders id) eqn:Hg; simpl; auto.
    left. rewrite MapFacts.keys_set.
    destruct (in_dec string_dec id (Map.keys orders)) as [Hin|Hout]; auto.
    exfalso. apply Hout. apply MapFacts.get_in_keys. congruence.
Qed.

(** X8. A creation under an identifier the store does not have puts the
    new order after all the others: the listing afterwards is the listing
    before, followed by the new order, and counts one more. *)
Theorem created_order_listed_last {engine : Engine} (products : list Product.t)
    (orders : Map.t Order.t) (body : value) (uuid createdNow updatedNow : string)
    (message : string) (order : Order.t) :
  let created := create_order products orders body uuid createdNow updatedNow in
  sent created = mkResponse 201 (OrderCreated message order) ->
  Map.get orders uuid = None ->
  sent (list_orders (stored created))
  = mkResponse 200 (OrderList (Map.values orders ++ [order]) (S (length orders))).
Proof.
  intros created H201 Hfresh.
  destruct (create_order_cases products orders body uuid createdNow updatedNow)
    as [E | [[msg E] | (_ & _ & t & lines & _ & E)]];
    fold created in E; try (rewrite E in H201; discriminate).
  rewrite E in H201. cbn [sent] in H201. injection H201 as _ <-.
  rewrite E. cbn [stored]. rewrite (set_fresh _ _ _ Hfresh).
  unfold list_orders, reply, Map.values. cbn [sent].
  rewrite map_app, length_app, length_map. simpl. rewrite Nat.add_1_r. reflexivity.
Qed.

(** A second order after the README's. *)
Lemma created_order_listed_last_witness :
  exists order,
    Order.id order = "id-2"
    /\ sent (list_orders
               (stored (create_order (engine := Examples.engine) Examples.catalog
                          Examples.one_order
                          (Examples.order_body [Examples.item "prod-002" (VNum 4)])
                          "id-2" "t1" "t1")))
       = mkResponse 200 (OrderList [Examples.readme_order; order] 2).
Proof.
  eexists. split; [|
    exact (created_order_listed_last (engine := Examples.engine) Examples.catalog
             Examples.one_order
             (Examples.order_body [Examples.item "prod-002" (VNum 4)])
             "id-2" "t1" "t1" _ _ eq_refl eq_refl)].
  reflexivity.
Defined.

Lemma refresh_status_truthy (order : Order.t) (oms : fetch_result) :
  truthy (Order.status order) = true -> truthy (Order.status (refresh order oms)) = true.
Proof.
  intros T0. destruct oms as [|[|] [omsData|]]; try exact T0.
  destruct (member omsData "data") as [data|] eqn:Hd.
  2:{ unfold refresh. now rewrite Hd. }
  destruct (truthy data) eqn:T.
  2:{ unfold refresh. now rewrite Hd, T. }
  rewrite (refresh_data _ _ _ Hd T). cbn [Order.status Order.set_updatedAt Order.set_status].
  unfold or_else. destruct (truthy (field data "status")) eqn:Ts; assumption.
Qed.

Lemma handle_keeps_status {engine : Engine} (products : list Product.t)
    (OMS_URL : string) (orders : Map.t Order.t) (req : request) :
  (forall k o, In (k, o) orders -> truthy (Order.status o) = true) ->
  forall k o, In (k, o) (stored (handle products OMS_URL orders req)) ->
              truthy (Order.status o) = true.
Proof.
  intros Hall. destruct req as [now| |id|body uuid t1 t2|id oms|]; simpl; try exact Hall.
  - unfold get_product. destruct (find _ products); exact Hall.
  - destruct (create_order_cases products orders body uuid t1 t2)
      as [-> | [[msg ->] | (_ & _ & t & lines & _ & ->)]]; simpl; try exact Hall.
    intros k o Hin. destruct (MapFacts.in_set _ _ _ _ _ Hin) as [[_ ->]|Hin']; [reflexivity|].
    exact (Hall _ _ Hin').
  - unfold get_order. destruct (Map.get orders id) as [order|] eqn:Hg; simpl; [|exact Hall].
    intros k o Hin. destruct (MapFacts.in_set _ _ _ _ _ Hin) as [[_ ->]|Hin'].
    + apply refresh_status_truthy. exact (Hall _ _ (MapFacts.get_in _ _ _ Hg)).
    + exact (Hall _ _ Hin').
Qed.

Lemma serve_keeps_status {engine : Engine} (products : list Product.t)
    (OMS_URL : string) (reqs : list request) : forall orders : Map.t Order.t,
  (forall k o, In (k, o) orders -> truthy (Order.status o) = true) ->
  forall k o, In (k, o) (serve products OMS_URL orders reqs) ->
              truthy (Order.status o) = true.
Proof.
  induction reqs as [|req reqs IH]; intros orders Hall; [exact Hall|].
  apply IH. now apply handle_keeps_status.
Qed.

(** X9. No stored order ever loses its status: in every store the process
    can reach, every order has a truthy status (it starts as [pending], and
    a retrieval replaces it only by a truthy downstream status). *)
Theorem stored_status_never_empty {engine : Engine} (products : list Product.t)
    (OMS_URL : string) (orders : Map.t Order.t) (k : string) (o : Order.t) :
  reachable products OMS_URL orders ->
  Map.get orders k = Some o ->
  truthy (Order.status o) = true.
Proof.
  intros [reqs <-] Hg.
  apply (serve_keeps_status products OMS_URL reqs Map.empty) with (k := k).
  - intros k' o' [].
  - now apply MapFacts.get_in.
Qed.

(** The README's order after the downstream service sent an empty status. *)
Lemma stored_status_never_empty_witness :
  truthy
    (Order.status
       (refresh Examples.readme_order
          (FetchResponse true
             (Normal (VObj [("data", VObj [("status", VStr EmptyString);
                                           ("updatedAt", VStr "t5")])])))))
  = true.
Proof.
  exact (stored_status_never_empty (engine := Examples.engine) Examples.catalog
           Examples.OMS_URL _ "id-1" _
           (ex_intro _
              [ PostOrder Examples.readme_body "id-1" "t0" "t0";
                GetOrder "id-1"
                  (FetchResponse true
                     (Normal (VObj [("data", VObj [("status", VStr EmptyString);
                                                   ("updatedAt", VStr "t5")])]))) ]
              eq_refl)
           eq_refl).
Defined.

(** X10. The downstream service is contacted by the retrieval of a stored
    order, once, at [OMS_URL/api/orders/<id>], and by nothing else: not by
    the retrieval of an unknown order, not by a creation, not by a listing
    or a catalog read. *)
Theorem downstream_called_by_retrieval_only {engine : Engine} (products : list Product.t)
    (OMS_URL : string) (orders : Map.t Order.t) (req : request) :
  fetched (handle products OMS_URL orders req)
  = match req with
    | GetOrder id _ =>
        match Map.get orders id with
        | Some _ => [OMS_URL ++ "/api/orders/" ++ id]
        | None => []
        end
    | _ => []
    end.
Proof.
  destruct req as [now| |id|body uuid t1 t2|id oms|]; simpl; try reflexivity.
  - unfold get_product. destruct (find _ products); reflexivity.
  - destruct (create_order_cases products orders body uuid t1 t2)
      as [-> | [[msg ->] | (_ & _ & t & lines & _ & ->)]]; reflexivity.
  - unfold get_order. destruct (Map.get orders id); reflexivity.
Qed.

(** X11. What an order charges is what the catalog shows: for every item
    of a created order, reading the product of that item answers 200 with
    the catalog record that has the item's identifier, name and unit
    price. *)
Theorem order_item_matches_product_read {engine : Engine} (products : list Product.t)
    (orders : Map.t Order.t) (body : value) (uuid createdNow updatedNow : string)
    (message : string) (order : Order.t) (line : OrderItem.t) :
  let created := create_order products orders body uuid createdNow updatedNow in
  sent created = mkResponse 201 (OrderCreated message order) ->
  In line (Order.items order) ->
  exists product,
    sent (get_product products (stored created) (OrderItem.productId line))
    = mkResponse 200 (ProductData product)
    /\ Product.id product = OrderItem.productId line
    /\ Product.name product = OrderItem.name line
    /\ Product.price product = OrderItem.unitPrice line
    /\ Product.price product = OrderItem.price line.
Proof.
  intros created H201 Hin.
  destruct (create_order_cases products orders body uuid createdNow updatedNow)
    as [E | [[msg E] | (_ & _ & t & lines & Hloop & E)]];
    fold created in E; try (rewrite E in H201; discriminate).
  rewrite E in H201. cbn [sent] in H201. injection H201 as _ <-.
  destruct (price_items_completed _ _ _ _ _ _ Hloop) as (lines' & Hl & Hall & _).
  simpl in Hl. subst lines'. cbn [new_order Order.items] in Hin.
  assert (Hp : exists item, priced products item line).
  { clear - Hall Hin. induction Hall as [|item l items lines Hp _ IH]; [destruct Hin|].
    destruct Hin as [->|Hin]; eauto. }
  destruct Hp as (item & product & quantity & n & _ & Hfind & _ & _ & _ & ->).
  exists product. unfold get_product. cbn [OrderItem.productId]. rewrite Hfind.
  repeat split.
Qed.

(** The keyboards of the README's order. *)
Lemma order_item_matches_product_read_witness :
  sent (get_product Examples.catalog Examples.one_order "prod-001")
  = mkResponse 200 (ProductData (Product.mk "prod-001" "Keyboard" 10 [])).
Proof.
  destruct (order_item_matches_product_read (engine := Examples.engine) Examples.catalog
              Map.empty Examples.readme_body "id-1" "t0" "t0"
              "Order created successfully" Examples.readme_order
              (OrderItem.mk "prod-001" "Keyboard" 10 (VNum 2) 10 20)
              eq_refl (or_introl eq_refl))
    as (product & Hsent & _).
  reflexivity.
Defined.

(** X12. Every product the catalog lists can be read by its identifier:
    the answer is 200 with a record of that identifier, the first of the
    catalog that has it, hence the product itself when identifiers are not
    repeated. *)
Theorem listed_product_can_be_read (products : list Product.t)
    (orders : Map.t Order.t) (p : Product.t) :
  In p products ->
  exists found,
    sent (get_product products orders (Product.id p)) = mkResponse 200 (ProductData found)
    /\ Product.id found = Product.id p
    /\ In found products
    /\ (NoDup (map Product.id products) -> found = p).
Proof.
  intros Hin. unfold get_product.
  destruct (find (fun q => String.eqb (Product.id q) (Product.id p)) products)
    as [found|] eqn:Hf.
  - destruct (find_some _ _ Hf) as [Hin' Heq]. apply String.eqb_eq in Heq.
    exists found. repeat split; try assumption.
    clear Hf. intros Hnd. induction products as [|q rest IH]; [destruct Hin|].
    simpl in Hnd. apply NoDup_cons_iff in Hnd. destruct Hnd as [Hq Hnd].
    destruct Hin as [->|Hin], Hin' as [->|Hin']; try reflexivity; try (now apply IH).
    + exfalso. apply Hq. rewrite <- Heq. now apply in_map.
    + exfalso. apply Hq. rewrite Heq. now apply in_map.
  - exfalso. pose proof (find_none _ _ Hf p Hin) as Hno. simpl in Hno.
    now rewrite String.eqb_refl in Hno.
Qed.

(** The cable of the example catalog. *)
Lemma listed_product_can_be_read_witness :
  exists found,
    sent (get_product Examples.catalog Map.empty "prod-002")
    = mkResponse 200 (ProductData found)
    /\ Product.id found = "prod-002".
Proof.
  destruct (listed_product_can_be_read Examples.catalog Map.empty
              (Product.mk "prod-002" "Cable" 2.5 []) (or_intror (or_introl eq_refl)))
    as (found & Hs & Hid & _).
  exists found. split; [exact Hs | exact Hid].
Defined.

(** X13. The [success] field and the status code agree, and a failure
    changes nothing: an answer with [success: false] has status 400, 404
    or 500, leaves the store as it was and fetched nothing; an answer with
    [success: true] has status 200 or 201; the only answer without the
    field is the health check's, with status 200. *)
Theorem success_matches_status {engine : Engine} (products : list Product.t)
    (OMS_URL : string) (orders : Map.t Order.t) (req : request) :
  let out := handle products OMS_URL orders req in
  match success (json (sent out)) with
  | Some false =>
      (statusCode (sent out) = 400 \/ statusCode (sent out) = 404
       \/ statusCode (sent out) = 500)
      /\ stored out = orders
      /\ fetched out = []
  | Some true => statusCode (sent out) = 200 \/ statusCode (sent out) = 201
  | None => statusCode (sent out) = 200 /\ exists now, req = GetHealth now
  end.
Proof.
  intros out. subst out.
  destruct req as [now| |id|body uuid t1 t2|id oms|]; simpl; eauto.
  - unfold get_product. destruct (find _ products); simpl; auto.
  - destruct (create_order_cases products orders body uuid t1 t2)
      as [-> | [[msg ->] | (_ & _ & t & lines & _ & ->)]]; simpl; auto.
  - unfold get_order. destruct (Map.get orders id); simpl; auto.
Qed.

(** X14. When the catalog file could not be read or parsed, the service
    runs with an empty catalog: the product listing is empty, every
    product read is answered 404, and no request creates an order: each
    is answered 400 or 500 and stores nothing. *)
Theorem failed_catalog_load {engine : Engine} (orders : Map.t Order.t) :
  let products := load_products Throw in
  sent (list_products products orders) = mkResponse 200 (ProductList [] 0)
  /\ (forall id,
        sent (get_product products orders id) = mkResponse 404 (Failure "Product not found"))
  /\ (forall body uuid createdNow updatedNow,
        let out := create_order products orders body uuid createdNow updatedNow in
        (statusCode (sent out) = 400 \/ statusCode (sent out) = 500)
        /\ stored out = orders).
Proof.
  intros products. split; [reflexivity|]. split; [reflexivity|].
  intros body uuid t1 t2 out.
  destruct (create_order_cases products orders body uuid t1 t2)
    as [E | [[msg E] | (Hi & _ & t & lines & Hloop & E)]];
    fold out in E; try (rewrite E; simpl; now auto).
  exfalso. clear E. destruct (items_present _ Hi) as (e & l & Hm).
  rewrite (member_field _ _ _ Hm) in Hloop. simpl elements in Hloop.
  destruct (price_items_completed _ _ _ _ _ _ Hloop) as (lines' & _ & Hall & _).
  inversion Hall as [|? ? ? ? Hp _]; subst.
  destruct Hp as (product & ? & ? & _ & Hfind & _). discriminate.
Qed.

(** X15. A creation touches no order but its own: under every identifier
    other than the generated one the store holds what it held. *)
Theorem create_order_leaves_others {engine : Engine} (products : list Product.t)
    (orders : Map.t Order.t) (body : value) (uuid createdNow updatedNow : string)
    (k : string) :
  k <> uuid ->
  Map.get (stored (create_order products orders body uuid createdNow updatedNow)) k
  = Map.get orders k.
Proof.
  intros Hne.
  destruct (create_order_cases products orders body uuid createdNow updatedNow)
    as [-> | [[msg ->] | (_ & _ & t & lines & _ & ->)]]; try reflexivity.
  cbn [stored]. apply MapFacts.get_set_other. congruence.
Qed.

(** The README's order is still there, as it was, after a second order. *)
Lemma create_order_leaves_others_witness :
  Map.get
    (stored (create_order (engine := Examples.engine) Examples.catalog Examples.one_order
               (Examples.order_body [Examples.item "prod-002" (VNum 4)])
               "id-2" "t1" "t1"))
    "id-1"
  = Some Examples.readme_order.
Proof.
  rewrite (create_order_leaves_others (engine := Examples.engine) Examples.catalog
             Examples.one_order
             (Examples.order_body [Examples.item "prod-002" (VNum 4)])
             "id-2" "t1" "t1" "id-1").
  - reflexivity.
  - discriminate.
Defined.

Lemma length_set {V} (m : Map.t V) k v : length (Map.set m k v) <= S (length m).
Proof.
  induction m as [|[k' v'] m IH]; simpl; [lia|].
  destruct (String.eqb k' k); simpl; lia.
Qed.

Lemma length_set_present {V} (m : Map.t V) k v v' :
  Map.get m k = Some v' -> length (Map.set m k v) = length m.
Proof.
  induction m as [|[k0 v0] m IH]; simpl; [discriminate|].
  destruct (String.eqb k0 k); simpl; [reflexivity|]. intros H. now rewrite IH.
Qed.

Lemma handle_length {engine : Engine} (products : list Product.t) (OMS_URL : string)
    (orders : Map.t Order.t) (req : request) :
  length (stored (handle products OMS_URL orders req))
  <= length orders + (if is_creation req then 1 else 0).
Proof.
  destruct req as [now| |id|body uuid t1 t2|id oms|]; simpl; try lia.
  - unfold get_product. destruct (find _ products); simpl; lia.
  - destruct (create_order_cases products orders body uuid t1 t2)
      as [-> | [[msg ->] | (_ & _ & t & lines & _ & ->)]]; simpl; try lia.
    pose proof (length_set orders uuid
                  (new_order uuid t1 t2 (field body "customer") t lines)). lia.
  - unfold get_order. destruct (Map.get orders id) eqn:Hg; simpl; [|lia].
    rewrite (length_set_present _ _ _ _ Hg). lia.
Qed.

(** X16. The store holds at most one order more per creation request
    served: reads and retrievals, however many, never make it larger. *)
Theorem store_size_bounded_by_creations {engine : Engine} (products : list Product.t)
    (OMS_URL : string) (reqs : list request) (orders : Map.t Order.t) :
  length (serve products OMS_URL orders reqs)
  <= length orders + length (filter is_creation reqs).
Proof.
  revert orders. unfold serve.
  induction reqs as [|req reqs IH]; intros orders; simpl; [lia|].
  specialize (IH (stored (handle products OMS_URL orders req))).
  pose proof (handle_length products OMS_URL orders req) as H.
  destruct (is_creation req); simpl; lia.
Qed.
